(** * linak-controller: the orchestration layer of [linak_controller/main.py]

    A shallow embedding of [main.py] (scan, connect, disconnect, the
    disconnect callback, run_command, the two forwarding servers, the
    forwarding client and the session supervisor [manage]) and the
    properties of the specification that concern it.

    The program is asynchronous Python talking to collaborators (bleak,
    aiohttp, [Desk], [config]).  It is embedded as state-passing code over

    - the [config] object, modelled as its attribute dictionary
      ([gmap string value]: [setattr] is insertion, an attribute read of a
      missing name raises [AttributeError]);
    - a chronological trace of every effect the code performs (prints,
      attribute writes, collaborator calls, scheduled tasks);
    - an environment [Env] that decides, from the trace so far, how each
      awaited collaborator call ends: it returns, raises, or never
      completes.

    Scheduling is not modelled: a task handed to [asyncio.create_task] is
    recorded when it is scheduled, and a server runs the handlers of its
    requests one after the other. *)

From Stdlib Require Import ZArith Lia Ascii String.
From stdpp Require Import base option strings list gmap.

Local Open Scope string_scope.
Local Open Scope list_scope.
Local Open Scope Z_scope.

(** ** Values *)

(** The callables that can be installed as [config.log]: the log sink of
    Configuration. *)
Inductive sink :=
| StartupSink                (* whatever config.py installed at start-up *)
| ForwardingSink (ws : nat). (* the closure [log] of run_forwarded_command,
                                which captures the WebSocketResponse [ws] *)

Global Instance sink_eq_dec : EqDecision sink.
Proof. solve_decision. Defined.

(** Python values held by attributes of [config] and carried by JSON
    descriptors: [None], booleans, integers, strings, a string-keyed
    dictionary of integers (the favourites table) and log sinks.  JSON
    floats, arrays and other nested objects are not represented. *)
Inductive value :=
| VNone
| VBool (b : bool)
| VInt (n : Z)
| VStr (s : string)
| VDict (d : gmap string Z)
| VSink (k : sink).

Global Instance value_eq_dec : EqDecision value.
Proof. solve_decision. Defined.

(** Python truth value testing ([if x], [not x], [while x]). *)
Definition truthy (v : value) : bool :=
  match v with
  | VNone => false
  | VBool b => b
  | VInt n => negb (n =? 0)
  | VStr s => negb (String.eqb s "")
  | VDict d => negb (bool_decide (d = ∅))
  | VSink _ => true
  end.

(** Python [==] on values; [True == 1] and [False == 0] hold as in Python. *)
Definition py_eq (a b : value) : bool :=
  match a, b with
  | VNone, VNone => true
  | VBool x, VBool y => Bool.eqb x y
  | VBool x, VInt n | VInt n, VBool x => n =? (if x then 1 else 0)
  | VInt n, VInt m => n =? m
  | VStr s, VStr t => String.eqb s t
  | VDict d, VDict e => bool_decide (d = e)
  | VSink k, VSink l => bool_decide (k = l)
  | _, _ => false
  end.

(** [x in xs] for a Python list [xs]. *)
Definition py_in_list (x : value) (xs : list value) : bool :=
  existsb (py_eq x) xs.

(** Modelled from the spec: the [Commands] enumeration of config.py, which
    is not part of the sources.  The spec lists the closed set of commands;
    its scenario [{"command":"move_to", ...}] shows that a command travels
    in a descriptor as the string of its name, so a member compares equal to
    that string (a [str]-valued enumeration).  The "none" command is Python's
    [None]. *)
Module Commands.
Inductive t := watch | move_to | scan_adapter | server | tcp_server.

Definition name (c : t) : string :=
match c with
| watch => "watch"
| move_to => "move_to"
| scan_adapter => "scan_adapter"
| server => "server"
| tcp_server => "tcp_server"
end.

Definition val (c : t) : value := VStr (name c).
End Commands.

(** main.py, lines 14-15. *)
Definition ALLOWED_KEYS : list string := ["command"; "move_to"; "quiet"].
Definition ALLOWED_COMMANDS : list value :=
  [VNone; Commands.val Commands.move_to; Commands.val Commands.watch].

(** ** Strings: [str.isnumeric], [int], [in] *)

(** A string is the sequence of the bytes of a Python [str] in UTF-8: the
    bytes below 128 are its ASCII characters.  Among the ASCII characters
    [c.isnumeric()] holds exactly of the ten decimal digits. *)
Definition is_digit (c : ascii) : bool :=
  let n := Ascii.nat_of_ascii c in ((48 <=? n) && (n <=? 57))%nat.

Fixpoint all_digits (s : string) : bool :=
  match s with
  | EmptyString => true
  | String c r => is_digit c && all_digits r
  end.

(** A decimal numeral in ASCII digits: at least one character, all of them
    digits.  For a string of ASCII characters this is [s.isnumeric()]. *)
Definition isnumeric (s : string) : bool :=
  match s with
  | EmptyString => false
  | _ => all_digits s
  end.

Fixpoint int_of_digits (acc : Z) (s : string) : Z :=
  match s with
  | EmptyString => acc
  | String c r => int_of_digits (10 * acc + (Z.of_nat (Ascii.nat_of_ascii c) - 48)) r
  end.

Fixpoint is_ascii (s : string) : bool :=
  match s with
  | EmptyString => true
  | String c r => (Ascii.nat_of_ascii c <? 128)%nat && is_ascii r
  end.

(** Python's reading of text that has characters outside ASCII.  It rests
    on the Unicode tables of the interpreter, which are no part of the
    sources, and is left open: [unicode_isnumeric s] is [s.isnumeric()], and
    [unicode_int s] is [int(s)], [None] when that raises ValueError (as it
    does of a superscript two, which is numeric). *)
Record Unicode := {
  unicode_isnumeric : string -> bool;
  unicode_int : string -> option Z;
}.

(** [s.isnumeric()]. *)
Definition py_isnumeric (u : Unicode) (s : string) : bool :=
  if is_ascii s then isnumeric s else unicode_isnumeric u s.

(** [int(s)] where [s.isnumeric()] holds; [None] is a ValueError. *)
Definition int_of_str (u : Unicode) (s : string) : option Z :=
  if is_ascii s then Some (int_of_digits 0 s) else unicode_int u s.

(** [str(v).isnumeric()].  [str] of a non-negative integer is its digits, of
    a negative one starts with a minus sign; [str] of [None], of a boolean,
    of a dictionary ("{...}") and of a function ("<function ...>") all
    contain a character that is not numeric. *)
Definition str_isnumeric (u : Unicode) (v : value) : bool :=
  match v with
  | VStr s => py_isnumeric u s
  | VInt n => 0 <=? n
  | _ => false
  end.

(** [int(v)] where [str(v).isnumeric()] holds; [None] is a ValueError. *)
Definition py_int (u : Unicode) (v : value) : option Z :=
  match v with
  | VInt n => Some n
  | VStr s => int_of_str u s
  | VBool b => Some (if b then 1 else 0)
  | _ => None
  end.

(** [a in b] for two strings: [a] occurs in [b]. *)
Fixpoint str_contains (a b : string) : bool :=
  String.prefix a b ||
  match b with
  | EmptyString => false
  | String _ r => str_contains a r
  end.

(** ** Heights *)

(** Modelled from the spec: the [Height] value of util.py, which is not part
    of the sources: "a raw device-resolution integer and a derived human
    unit (millimetres)".  The two conversions are left open.  [Height(h,
    True)] converts [h] from the human unit; [Height(h)] keeps the raw
    reading. *)
Record Units := {
  heightToInternalHeight : Z -> Z;
  internalHeightToHeight : Z -> Z;
}.

Record Height := { Height_value : Z }.

Global Instance Height_eq_dec : EqDecision Height.
Proof. solve_decision. Defined.

Definition Height_new (u : Units) (height : Z) (convertFromHuman : bool) : Height :=
  {| Height_value := if convertFromHuman then heightToInternalHeight u height else height |}.

Definition Height_human (u : Units) (h : Height) : Z :=
  internalHeightToHeight u (Height_value h).

(** ** Exceptions and outcomes *)

Inductive exn_class :=
| BleakError | TimeoutError | OSError
| AttributeError | TypeError | ValueError | OtherException
| KeyboardInterrupt | CancelledError.

Global Instance exn_class_eq_dec : EqDecision exn_class.
Proof. solve_decision. Defined.

(** An exception: its class and [str(e)]. *)
Record exn := Exn { exn_class_of : exn_class; exn_str : string }.

Global Instance exn_eq_dec : EqDecision exn.
Proof. solve_decision. Defined.

Definition is_BleakError (e : exn) : bool :=
  bool_decide (exn_class_of e = BleakError).

(** [asyncio.exceptions.TimeoutError]. *)
Definition is_TimeoutError (e : exn) : bool :=
  bool_decide (exn_class_of e = TimeoutError).

(** [isinstance(e, OSError)]; since Python 3.11 asyncio's TimeoutError is
    the builtin one, a subclass of OSError. *)
Definition is_OSError (e : exn) : bool :=
  bool_decide (exn_class_of e = OSError) || bool_decide (exn_class_of e = TimeoutError).

(** [isinstance(e, Exception)]: everything but the two classes that derive
    from BaseException only. *)
Definition is_Exception (e : exn) : bool :=
  negb (bool_decide (exn_class_of e = KeyboardInterrupt)
        || bool_decide (exn_class_of e = CancelledError)).

(** How a piece of code ends: it returns, it raises, or it never completes
    (an await that is never resumed). *)
Inductive outcome (A : Type) :=
| Ret (a : A)
| Raise (e : exn)
| Hang.
Arguments Ret {A} a.
Arguments Raise {A} e.
Arguments Hang {A}.

(** ** Collaborator objects *)

Record BLEDevice := { device_address : string; device_name : string }.

(** [BleakClient(address, device=adapter,
    disconnected_callback=disconnect_callback)]. *)
Record BleakClient := { address : value; device : value }.

(** A JSON object as [json.loads] returns it: its items in iteration
    order. *)
Definition descriptor := list (string * value).

(** What [json.loads] makes of a received text. *)
Inductive json :=
| JObject (items : descriptor)
| JNotObject (raises : option exn)
    (* another JSON document.  Iterating it and subscripting it or calling
       setattr with its elements raises (TypeError, IndexError) before any
       attribute is set, except for an empty array or string, where the
       loop has nothing to visit: [None]. *)
| JMalformed.
    (* not JSON (or not UTF-8): a ValueError *)

(** A message yielded by [async for msg in ws]. *)
Inductive ws_message :=
| WsText (data : json)
| WsOtherType.

(** The arguments of [config.info], [config.warn] and [config.error] in
    run_command; heights appear in their human unit. *)
Inductive message :=
| MsgWatching
| MsgMovingToFavourite (move_to : value) (target_human : Z)
| MsgMovingToHeight (move_to : value)
| MsgNotValid (move_to : value)
| MsgNothingToDo
| MsgFinalHeight (final_human target_human : Z).

(** The lines given to [print]. *)
Inductive line :=
| LScanning
| LFound (n : nat) (adapter : value)
| LDevice (d : BLEDevice)
| LLostConnection (addr : value)
| LConnecting
| LConnected (mac : value)
| LTcpListening
| LReceivedCommand
| LServerListening
| LLogged (m : message)
| LMustBeOneOf
| LFrame (data : string)
| LConnectingFailed
| LException (e : exn)
| LTraceback (e : exn)
| LTimedOut
| LUnexpected
| LDisconnecting
| LDisconnected.

(** The coroutines handed to [asyncio.create_task]. *)
Inductive task :=
| TaskConnect (client : BleakClient)
| TaskSendStr (ws : nat) (m : message).

(** ** Events *)

Inductive event :=
| EPrint (l : line)
| ESetAttr (key : string) (v : value)       (* an attribute of config is set *)
| ESetDict (d : gmap string Z)              (* config.__dict__ is replaced *)
| EInfo (m : message)                       (* config.info(m) *)
| EWarn (m : message)                       (* config.warn(m) *)
| EError (m : message)                      (* config.error(m) *)
| EStartupLog (m : message)                 (* a call of the sink of start-up *)
| EDiscover (adapter timeout : value)       (* BleakScanner().discover(...) *)
| ENewClient (c : BleakClient)              (* BleakClient(...) *)
| EClientConnect (c : BleakClient) (timeout : value)
| EClientDisconnect (c : BleakClient)
| EDeskInitialise (c : BleakClient)
| EDeskGetHeightSpeed (c : BleakClient)
| EDeskLogState (h : Height)
| EDeskWatchHeightSpeed (c : BleakClient)
| EDeskMoveTo (c : BleakClient) (target : Height)
| EDeskStop (c : BleakClient)
| ECreateTask (t : task)
| EStartServer (addr port : value)          (* asyncio.start_server *)
| EServeForever
| EReaderRead (conn : nat)
| EWriterClose (conn : nat)
| ERunnerSetup
| ESiteStart (addr port : value)
| EAwaitFuture                              (* await asyncio.Future() *)
| EWsPrepare (ws : nat)
| EWsNext (ws : nat)                        (* async for msg in ws *)
| ESleep (seconds : Z)
| EWsClose (ws : nat)
| EClientSession                            (* aiohttp.ClientSession() *)
| EWsConnect (addr port : value)
| EWsSendStr (d : descriptor)
| EWsReceive
| EWsCloseClient
| ESessionClose.

Global Instance BLEDevice_eq_dec : EqDecision BLEDevice.
Proof. solve_decision. Defined.
Global Instance BleakClient_eq_dec : EqDecision BleakClient.
Proof. solve_decision. Defined.
Global Instance message_eq_dec : EqDecision message.
Proof. solve_decision. Defined.
Global Instance line_eq_dec : EqDecision line.
Proof. solve_decision. Defined.
Global Instance task_eq_dec : EqDecision task.
Proof. solve_decision. Defined.
Global Instance event_eq_dec : EqDecision event.
Proof. solve_decision. Defined.

Definition trace := list event.

(** ** The environment *)

(** Every awaited collaborator call is answered by the environment, which
    sees the trace up to the call.  [io] answers the calls that return
    nothing, named by their event. *)
Record Env := {
  units : Units;
  unicode : Unicode;
  io : event -> trace -> outcome unit;
  discover : value -> value -> trace -> outcome (list BLEDevice);
  is_connected : BleakClient -> trace -> bool;
  Desk_get_height_speed : BleakClient -> trace -> outcome (Height * Z);
  reader_read : nat -> trace -> outcome json;
  ws_next : nat -> trace -> outcome (option ws_message);
      (* [None]: the socket is closed, the iteration stops *)
  ws_frames : trace -> list (option string) * outcome unit;
      (* forwarding client: the messages received before the receive loop
         ends, [Some data] a text frame and [None] a message of another
         type that does not end the loop (binary, ping, close); then how the
         loop ends: a closed or error message, an exception, or never *)
  tcp_inbound : list nat;  (* the connections the socket server accepts *)
  ws_inbound : list nat;   (* the requests the message server accepts *)
  interrupt : trace -> outcome Empty_set;
      (* how an await that cannot return ends: raised into, or never *)
}.

(** ** State and the monad of the embedding *)

Record State := { config : gmap string value; trace_of : trace }.

Definition M (A : Type) : Type := State -> outcome A * State.

Global Instance M_ret : MRet M := fun A a s => (Ret a, s).
Global Instance M_bind : MBind M := fun A B f m s =>
  match m s with
  | (Ret a, s1) => f a s1
  | (Raise e, s1) => (Raise e, s1)
  | (Hang, s1) => (Hang, s1)
  end.

Definition raise {A} (e : exn) : M A := fun s => (Raise e, s).

Definition emit (e : event) : M unit := fun s =>
  (Ret tt, {| config := config s; trace_of := trace_of s ++ [e] |}).

Definition print (l : line) : M unit := emit (EPrint l).

(** [config.<name>]. *)
Definition getattr (name : string) : M value := fun s =>
  match config s !! name with
  | Some v => (Ret v, s)
  | None => (Raise (Exn AttributeError name), s)
  end.

(** [config.<name> = v], and [setattr(config, name, v)] for a plain
    name. *)
Definition setattr (name : string) (v : value) : M unit := fun s =>
  (Ret tt, {| config := <[name := v]> (config s);
              trace_of := trace_of s ++ [ESetAttr name v] |}).

(** [setattr(config, key, v)] for a key and a value out of a descriptor.
    Three names are no plain attributes of an object: assigning [__dict__]
    replaces the attribute dictionary by the given dictionary, and raises
    for anything else, assigning [__class__] raises for a value that is no
    class, and [__weakref__] cannot be assigned. *)
Definition py_setattr (key : string) (v : value) : M unit :=
  if String.eqb key "__dict__" then
    match v with
    | VDict d => fun s =>
        (Ret tt, {| config := VInt <$> d; trace_of := trace_of s ++ [ESetDict d] |})
    | _ => raise (Exn TypeError "__dict__ must be set to a dictionary")
    end
  else if String.eqb key "__class__" then
    raise (Exn TypeError "__class__ must be set to a class")
  else if String.eqb key "__weakref__" then
    raise (Exn AttributeError "__weakref__ is not writable")
  else setattr key v.

(** [config.__dict__]. *)
Definition get_dict : M (gmap string value) := fun s => (Ret (config s), s).

(** A collaborator call recorded as [e]; [answer] decides how it ends from
    the trace before the call. *)
Definition call {A} (e : event) (answer : trace -> outcome A) : M A := fun s =>
  (answer (trace_of s), {| config := config s; trace_of := trace_of s ++ [e] |}).

Definition for_each {A} (f : A -> M unit) : list A -> M unit :=
  fix go l := match l with
              | [] => mret tt
              | x :: r => f x;; go r
              end.

(** [try: body  except ...: handler]: [handler e] is the suite of the first
    clause that matches [e], if one does. *)
Definition except_ {A} (r : outcome A * State) (handler : exn -> option (M A))
  : outcome A * State :=
  match r with
  | (Raise e, s) => match handler e with
                    | Some h => h s
                    | None => (Raise e, s)
                    end
  | _ => r
  end.

(** [try: ...  finally: fin]: [fin] runs however the try statement ended,
    unless it never ended; an exception of [fin] replaces the result. *)
Definition finally_ {A} (r : outcome A * State) (fin : M unit)
  : outcome A * State :=
  match r with
  | (Hang, s) => (Hang, s)
  | (o, s) => match fin s with
              | (Ret _, s1) => (o, s1)
              | (Raise e, s1) => (Raise e, s1)
              | (Hang, s1) => (Hang, s1)
              end
  end.

(** ** The program *)

Section Program.

Context (env : Env).

(** An awaited collaborator call that returns nothing. *)
Definition await (e : event) : M unit := call e (io env e).

(** An await that cannot return, such as [asyncio.Future()]. *)
Definition interrupted {A} : M A := fun s =>
  (match interrupt env (trace_of s) with
   | Ret x => match x with end
   | Raise e => Raise e
   | Hang => Hang
   end, s).

(** [asyncio.create_task(t)]: the task is scheduled, it runs later. *)
Definition create_task (t : task) : M unit := emit (ECreateTask t).

(** Modelled from the spec: the methods [info], [warn] and [error] of the
    [config] object, defined in config.py, which is not part of the sources.
    The spec only says that they log a message for the operator; a call is
    recorded as an event with its level and message. *)
Definition info (m : message) : M unit := emit (EInfo m).
Definition warn (m : message) : M unit := emit (EWarn m).
Definition error (m : message) : M unit := emit (EError m).

(** Modelled from the spec: the Device collaborator [Desk] of desk.py, which
    is not part of the sources.  Its contract in the spec is
    [initialise(connection)], [getHeightSpeed(connection) -> (Height,
    Speed)], [logState(Height)], [watchHeightSpeed(connection)],
    [moveTo(connection, Height)] and [stop(connection)]: calls on the
    connection, which do not write Configuration.  Each call is recorded as
    an event; the awaited ones are answered by the environment. *)
Definition get_height_speed (client : BleakClient) : M (Height * Z) :=
  call (EDeskGetHeightSpeed client) (Desk_get_height_speed env client).

(** [client.is_connected]. *)
Definition client_is_connected (client : BleakClient) : M bool := fun s =>
  (Ret (is_connected env client (trace_of s)), s).

(** main.py, lines 17-26. *)
Definition scan : M (list BLEDevice) :=
  print LScanning;;
  adapter ← getattr "adapter_name";
  timeout ← getattr "scan_timeout";
  devices ← call (EDiscover adapter timeout) (discover env adapter timeout);
  adapter ← getattr "adapter_name";
  print (LFound (length devices) adapter);;
  for_each (fun device => print (LDevice device)) devices;;
  mret devices.

(** main.py, lines 29-32. *)
Definition disconnect_callback (client : BleakClient) : M unit :=
  disconnecting ← getattr "disconnecting";
  if negb (truthy disconnecting) then
    print (LLostConnection (address client));;
    create_task (TaskConnect client)
  else mret tt.

(** main.py, lines 35-49.  [attempt] is not used by the body. *)
Definition connect (client : option BleakClient) (attempt : Z) : M BleakClient :=
  print LConnecting;;
  client ← match client with
           | Some c => mret c
           | None =>
               mac ← getattr "mac_address";
               adapter ← getattr "adapter_name";
               let c := {| address := mac; device := adapter |} in
               emit (ENewClient c);;
               mret c
           end;
  timeout ← getattr "connection_timeout";
  await (EClientConnect client timeout);;
  mac ← getattr "mac_address";
  print (LConnected mac);;
  await (EDeskInitialise client);;
  mret client.

(** main.py, lines 52-56. *)
Definition disconnect (client : BleakClient) : M unit :=
  connected ← client_is_connected client;
  if (connected : bool) then
    setattr "disconnecting" (VBool true);;
    await (EClientDisconnect client)
  else mret tt.

(** [x in c] for the value [c] of [config.favourites]: a dictionary looks the
    key up (an unhashable key raises), a string tests for a substring,
    anything else is no container. *)
Definition py_in (x c : value) : M bool :=
  match c, x with
  | VDict d, VStr s => mret (bool_decide (is_Some (d !! s)))
  | VDict _, VDict _ => raise (Exn TypeError "unhashable type")
  | VDict _, _ => mret false
  | VStr t, VStr s => mret (str_contains s t)
  | _, _ => raise (Exn TypeError "not a container")
  end.

(** [c.get(x)] after [x in c] held; only a dictionary has [get]. *)
Definition py_get (c x : value) : M Z :=
  match c, x with
  | VDict d, VStr s =>
      match d !! s with
      | Some h => mret h
      | None => raise (Exn TypeError "Height(None, True)")
      end
  | _, _ => raise (Exn AttributeError "get")
  end.

(** main.py, lines 69-81: the resolution of the move-to target.  [None] is
    the [return] of line 81. *)
Definition resolve_target : M (option Height) :=
  move_to ← getattr "move_to";
  favourites ← getattr "favourites";
  is_favourite ← py_in move_to favourites;
  if (is_favourite : bool) then
    favourites ← getattr "favourites";
    move_to ← getattr "move_to";
    h ← py_get favourites move_to;
    let target := Height_new (units env) h true in
    move_to ← getattr "move_to";
    info (MsgMovingToFavourite move_to (Height_human (units env) target));;
    mret (Some target)
  else
    move_to ← getattr "move_to";
    if str_isnumeric (unicode env) move_to then
      move_to ← getattr "move_to";
      h ← match py_int (unicode env) move_to with
          | Some h => mret h
          | None => raise (Exn ValueError "invalid literal for int()")
          end;
      let target := Height_new (units env) h true in
      move_to ← getattr "move_to";
      info (MsgMovingToHeight move_to);;
      mret (Some target)
    else
      move_to ← getattr "move_to";
      error (MsgNotValid move_to);;
      mret None.

(** main.py, lines 59-93. *)
Definition run_command (client : BleakClient) : M unit :=
  '(initial_height, _) ← get_height_speed client;
  emit (EDeskLogState initial_height);;
  command ← getattr "command";
  if py_eq command (Commands.val Commands.watch) then
    info MsgWatching;;
    await (EDeskWatchHeightSpeed client)
    (* target is None: line 86 skips the final report *)
  else
    command ← getattr "command";
    if py_eq command (Commands.val Commands.move_to) then
      target ← resolve_target;
      match target with
      | None => mret tt
      | Some target =>
          if Height_value target =? Height_value initial_height then
            warn MsgNothingToDo
          else
            await (EDeskMoveTo client target);;
            (* line 86: a Height object is true *)
            '(final_height, _) ← get_height_speed client;
            info (MsgFinalHeight (Height_human (units env) final_height)
                                 (Height_human (units env) target))
      end
    else mret tt.

(** [json.loads(text)]. *)
Definition json_loads (j : json) : M json :=
  match j with
  | JMalformed => raise (Exn ValueError "JSONDecodeError")
  | _ => mret j
  end.

(** [for key in forwarded_config: setattr(config, key,
    forwarded_config[key])], lines 113-114 and 146-147. *)
Definition apply_forwarded_config (forwarded_config : json) : M unit :=
  match forwarded_config with
  | JObject items => for_each (fun '(key, v) => py_setattr key v) items
  | JNotObject None => mret tt
  | JNotObject (Some e) => raise e
  | JMalformed => mret tt
  end.

(** main.py, lines 108-116; [conn] names the reader and writer pair. *)
Definition run_tcp_forwarded_command (client : BleakClient) (conn : nat) : M unit :=
  print LReceivedCommand;;
  request ← call (EReaderRead conn) (reader_read env conn);
  forwarded_config ← json_loads request;
  apply_forwarded_config forwarded_config;;
  run_command client;;
  emit (EWriterClose conn).



(** main.py, lines 142-149: the socket is prepared and its first message,
    when it is a text, is applied and run. *)
Definition receive_command (client : BleakClient) (ws : nat) : M unit :=
  await (EWsPrepare ws);;
  msg ← call (EWsNext ws) (ws_next env ws);
  match msg with
  | Some (WsText data) =>
      forwarded_config ← json_loads data;
      apply_forwarded_config forwarded_config;;
      run_command client
  | Some WsOtherType => mret tt
  | None => mret tt
  end.

(** main.py, lines 131-152; [ws] names the WebSocketResponse made for the
    request. *)
Definition run_forwarded_command (client : BleakClient) (ws : nat) : M nat :=
  print LReceivedCommand;;
  setattr "log" (VSink (ForwardingSink ws));;
  receive_command client ws;;
  await (ESleep 1);;
  await (EWsClose ws);;
  mret ws.

(** A request handler runs in a task of its own: what it returns or raises
    stays there.  Requests are served one after the other. *)
Definition in_task {A} (m : M A) : M unit := fun s => (Ret tt, snd (m s)).

(** main.py, lines 96-105. *)
Definition run_tcp_server (client : BleakClient) : M unit :=
  addr ← getattr "server_address";
  port ← getattr "server_port";
  await (EStartServer addr port);;
  print LTcpListening;;
  emit EServeForever;;
  for_each (fun conn => in_task (run_tcp_forwarded_command client conn)) (tcp_inbound env);;
  interrupted.

(** main.py, lines 119-128. *)
Definition run_server (client : BleakClient) : M unit :=
  await ERunnerSetup;;
  addr ← getattr "server_address";
  port ← getattr "server_port";
  await (ESiteStart addr port);;
  print LServerListening;;
  emit EAwaitFuture;;
  for_each (fun ws => in_task (run_forwarded_command client ws)) (ws_inbound env);;
  interrupted.

(** [json.dumps(d)]: a function is not serialisable. *)
Definition json_dumps (d : descriptor) : M descriptor :=
  if existsb (fun kv => match snd kv with VSink _ => true | _ => false end) d
  then raise (Exn TypeError "not JSON serializable")
  else mret d.

(** main.py, lines 171-176: receive until the other side is closed or
    signals an error, printing the text frames and passing over the
    messages of other types. *)
Definition receive_loop : M unit := fun s =>
  let '(messages, ending) := ws_frames env (trace_of s) in
  (for_each (fun msg => emit EWsReceive;;
                        match msg with
                        | Some data => print (LFrame data)
                        | None => mret tt
                        end) messages;;
   call EWsReceive (fun _ => ending)) s.

(** main.py, lines 163-165: the allow-listed attributes of [config_dict]. *)
Definition forwarded (config_dict : gmap string value) : descriptor :=
  omap (fun key => (fun v => (key, v)) <$> config_dict !! key) ALLOWED_KEYS.

(** main.py, lines 155-178. *)
Definition forward_command : M unit :=
  command ← getattr "command";
  if negb (py_in_list command ALLOWED_COMMANDS) then
    print LMustBeOneOf
  else
    config_dict ← get_dict;
    let forwarded_config := forwarded config_dict in
    emit EClientSession;;
    addr ← getattr "server_address";
    port ← getattr "server_port";
    await (EWsConnect addr port);;
    text ← json_dumps forwarded_config;
    await (EWsSendStr text);;
    receive_loop;;
    await EWsCloseClient;;
    await ESessionClose.

(** main.py, lines 194-205: the inner try statement.  [inl code] is a
    [return code], [inr client] leaves the statement connected. *)
Definition manage_connect : M (Z + BleakClient) := fun s =>
  except_ ((client ← connect None 0; mret (inr client)) s)
    (fun e =>
       if is_BleakError e then Some (
         print LConnectingFailed;;
         (if str_contains "was not found" (exn_str e)
          then print (LException e)
          else print (LTraceback e));;
         mret (inl 1))
       else if is_TimeoutError e then Some (
         print LTimedOut;;
         mret (inl 1))
       else None).

(** main.py, lines 206-212. *)
Definition manage_dispatch (client : BleakClient) : M Z :=
  command ← getattr "command";
  (if py_eq command (Commands.val Commands.server) then
     run_server client
   else
     command ← getattr "command";
     if py_eq command (Commands.val Commands.tcp_server) then
       run_tcp_server client
     else
       run_command client);;
  mret 0.

(** main.py, lines 184-212: the suite of the outer try statement, together
    with the value the local variable [client] has when the suite is left. *)
Definition manage_suite (s : State) : option BleakClient * (outcome Z * State) :=
  match (forward ← getattr "forward";
         if truthy forward then
           forward_command;; mret (inl 0)
         else
           command ← getattr "command";
           if py_eq command (Commands.val Commands.scan_adapter) then
             scan;; mret (inl 0)
           else manage_connect) s with
  | (Ret (inl code), s1) => (None, (Ret code, s1))
  | (Ret (inr client), s1) => (Some client, manage_dispatch client s1)
  | (Raise e, s1) => (None, (Raise e, s1))
  | (Hang, s1) => (None, (Hang, s1))
  end.

(** main.py, lines 221-225; a client object is true. *)
Definition manage_cleanup (client : option BleakClient) : M unit :=
  match client with
  | Some client =>
      print LDisconnecting;;
      await (EDeskStop client);;
      disconnect client;;
      print LDisconnected
  | None => mret tt
  end.

(** main.py, lines 213-219: the except clauses of the outer try statement. *)
Definition manage_except (e : exn) : option (M Z) :=
  if is_OSError e then Some (
    print (LException e);;
    mret 1)
  else if is_Exception e then Some (
    print LUnexpected;;
    print (LTraceback e);;
    mret 1)
  else None.

(** main.py, lines 181-225. *)
Definition manage : M Z := fun s =>
  let '(client, r) := manage_suite s in
  finally_ (except_ r manage_except) (manage_cleanup client).

(** main.py, lines 228-232.  [Some code] is [os._exit(code)]; [None] means
    that the loop is still running when the fuel is used up. *)
Fixpoint main_loop (fuel : nat) (return_code : Z) : M (option Z) :=
  match fuel with
  | O => mret None
  | S fuel =>
      forever ← getattr "forever";
      if truthy forever then
        return_code ← manage;
        main_loop fuel return_code
      else mret (Some return_code)
  end.

Definition main (fuel : nat) : M (option Z) :=
  return_code ← manage;
  main_loop fuel return_code.

End Program.

(** ** Vocabulary of the statements *)

(** The configuration obtained from [c] by the attribute writes of a
    trace. *)
Fixpoint replay (c : gmap string value) (tr : trace) : gmap string value :=
  match tr with
  | [] => c
  | ESetAttr key v :: r => replay (<[key := v]> c) r
  | ESetDict d :: r => replay (VInt <$> d) r
  | _ :: r => replay c r
  end.

(** [m] only appends to the trace, every attribute write it makes is in the
    trace, and each event it adds satisfies [P]. *)
Definition emits (P : event -> Prop) {A} (m : M A) : Prop :=
  forall s, exists tr,
    trace_of (m s).2 = trace_of s ++ tr /\
    config (m s).2 = replay (config s) tr /\
    Forall P tr.

Definition is_write (e : event) : Prop :=
  match e with ESetAttr _ _ | ESetDict _ => True | _ => False end.

Definition writes_to (key : string) (e : event) : Prop :=
  match e with ESetAttr k _ => k = key | ESetDict _ => True | _ => False end.

(** A reconnect attempt: the task [connect(client)] is scheduled. *)
Definition is_reconnect (e : event) : bool :=
  match e with ECreateTask (TaskConnect _) => true | _ => false end.

Definition reconnects (tr : trace) : nat := length (filter (fun e => is_reconnect e = true) tr).

(** A device write: [Desk.move_to]. *)
Definition is_device_write (e : event) : bool :=
  match e with EDeskMoveTo _ _ => true | _ => false end.

(** Entering the watch path: [Desk.watch_height_speed]. *)
Definition is_watch (e : event) : bool :=
  match e with EDeskWatchHeightSpeed _ => true | _ => false end.

Definition is_print (e : event) : bool :=
  match e with EPrint _ => true | _ => false end.

(** Creating a BleakClient, calling it, or calling the desk. *)
Definition is_device_event (e : event) : bool :=
  match e with
  | ENewClient _ | EClientConnect _ _ | EClientDisconnect _
  | EDeskInitialise _ | EDeskGetHeightSpeed _ | EDeskLogState _
  | EDeskWatchHeightSpeed _ | EDeskMoveTo _ _ | EDeskStop _ => true
  | _ => false
  end.

(** A discovery: [BleakScanner().discover]. *)
Definition is_discover (e : event) : bool :=
  match e with EDiscover _ _ => true | _ => false end.

(** An attribute name that [setattr] treats as a plain attribute. *)
Definition plain_key (key : string) : bool :=
  negb (String.eqb key "__dict__") && negb (String.eqb key "__class__")
  && negb (String.eqb key "__weakref__").

(** The keys a received document assigns. *)
Definition json_keys (j : json) : list string :=
  match j with
  | JObject items => items.*1
  | _ => []
  end.

(** What the forwarding client does for the messages [messages]: one
    receive for each, and a print for each text frame. *)
Definition received (messages : list (option string)) : trace :=
  flat_map (fun msg => EWsReceive :: match msg with
                                     | Some data => [EPrint (LFrame data)]
                                     | None => []
                                     end) messages.

(** [s] with the events [tr] added to its trace. *)
Definition after (s : State) (tr : trace) : State :=
  {| config := config s; trace_of := trace_of s ++ tr |}.


Definition not_valid (client : BleakClient) (initial : Height) (name : string) : trace :=
  [EDeskGetHeightSpeed client; EDeskLogState initial; EError (MsgNotValid (VStr name))].

(** What the except clauses of the inner and of the outer try statement
    print. *)
Definition connect_report (e : exn) : trace :=
  if is_BleakError e then
    [EPrint LConnectingFailed;
     EPrint (if str_contains "was not found" (exn_str e) then LException e else LTraceback e)]
  else [EPrint LTimedOut].

Definition manage_report (e : exn) : trace :=
  if is_OSError e then [EPrint (LException e)]
  else [EPrint LUnexpected; EPrint (LTraceback e)].

(** What the except clauses of the outer try statement add to the trace
    when the suite ended as [r]. *)
Definition suite_report (r : outcome Z) : trace :=
  match r with
  | Raise e => if is_Exception e then manage_report e else []
  | _ => []
  end.

(** ** An example installation *)

Module Example.

(** A desk whose lowest position is 620 mm, in tenths of a millimetre. *)
Definition desk_units : Units :=
{| heightToInternalHeight := fun h => (h - 620) * 10;
   internalHeightToHeight := fun r => r / 10 + 620 |}.

(** The examples hold ASCII text only: what the interpreter makes of other
  text is never asked for there, and is given a default. *)
Definition ascii_only : Unicode :=
{| unicode_isnumeric := fun _ => false; unicode_int := fun _ => None |}.

Definition desk : BLEDevice := {| device_address := "AA:AA"; device_name := "Desk" |}.
Definition lamp : BLEDevice := {| device_address := "BB:BB"; device_name := "Lamp" |}.

Definition standing : descriptor :=
[("command", VStr "move_to"); ("move_to", VStr "standing")].

Definition rebind : descriptor := [("mac_address", VStr "BB:BB")].

(** Every collaborator call returns; the desk stands at 750 mm; two
  devices are in range; both servers get one request carrying [d], and
  are then interrupted from the keyboard. *)
Definition calm (d : descriptor) : Env :=
{| units := desk_units;
   unicode := ascii_only;
   io := fun _ _ => Ret tt;
   discover := fun _ _ _ => Ret [desk; lamp];
   is_connected := fun _ _ => true;
   Desk_get_height_speed := fun _ _ => Ret ({| Height_value := 1300 |}, 0);
   reader_read := fun _ _ => Ret (JObject d);
   ws_next := fun _ _ => Ret (Some (WsText (JObject d)));
   ws_frames := fun _ => ([Some "Final height"; None], Ret tt);
   tcp_inbound := [0%nat];
   ws_inbound := [7%nat];
   interrupt := fun _ => Raise (Exn KeyboardInterrupt "") |}.

(** As [calm], but the call recorded as [bad] raises [e]. *)
Definition failing (bad : event) (e : exn) : Env :=
{| units := desk_units;
   unicode := ascii_only;
   io := fun ev _ => if decide (ev = bad) then Raise e else Ret tt;
   discover := fun _ _ _ => Ret [desk; lamp];
   is_connected := fun _ _ => true;
   Desk_get_height_speed := fun _ _ => Ret ({| Height_value := 1300 |}, 0);
   reader_read := fun _ _ => Ret (JObject standing);
   ws_next := fun _ _ => Ret (Some (WsText (JObject standing)));
   ws_frames := fun _ => ([Some "Final height"; None], Ret tt);
   tcp_inbound := [0%nat];
   ws_inbound := [7%nat];
   interrupt := fun _ => Raise (Exn KeyboardInterrupt "") |}.

Definition attributes : gmap string value :=
list_to_map
  [("command", VNone); ("move_to", VNone); ("quiet", VBool false);
   ("mac_address", VStr "AA:AA"); ("adapter_name", VStr "hci0");
   ("scan_timeout", VInt 5); ("connection_timeout", VInt 10);
   ("server_address", VStr "127.0.0.1"); ("server_port", VInt 9123);
   ("forward", VBool false); ("forever", VBool false);
   ("favourites", VDict (list_to_map [("standing", 1100); ("sitting", 750)]));
   ("disconnecting", VBool false); ("log", VSink StartupSink)].

(** The start of a process whose command line selects [command] and the
  move-to target [move_to]. *)
Definition start (command move_to : value) : State :=
{| config := <["command" := command]> (<["move_to" := move_to]> attributes);
   trace_of := [] |}.

Definition client : BleakClient := {| address := VStr "AA:AA"; device := VStr "hci0" |}.

(** As [calm], but the desk cannot be read: the reading raises [e]. *)
Definition blind (e : exn) : Env :=
  {| units := desk_units;
   unicode := ascii_only;
     io := fun _ _ => Ret tt;
     discover := fun _ _ _ => Raise e;
     is_connected := fun _ _ => true;
     Desk_get_height_speed := fun _ _ => Raise e;
     reader_read := fun _ _ => Ret (JObject standing);
     ws_next := fun _ _ => Ret (Some (WsText (JObject standing)));
     ws_frames := fun _ => ([Some "Final height"; None], Ret tt);
     tcp_inbound := [0%nat];
     ws_inbound := [7%nat];
     interrupt := fun _ => Raise (Exn KeyboardInterrupt "") |}.

(** As [calm], but the socket server reads the document [j] and the message
    server receives [m]. *)
Definition serving (j : json) (m : option ws_message) : Env :=
  {| units := desk_units;
   unicode := ascii_only;
     io := fun _ _ => Ret tt;
     discover := fun _ _ _ => Ret [desk; lamp];
     is_connected := fun _ _ => true;
     Desk_get_height_speed := fun _ _ => Ret ({| Height_value := 1300 |}, 0);
     reader_read := fun _ _ => Ret j;
     ws_next := fun _ _ => Ret m;
     ws_frames := fun _ => ([Some "Final height"; None], Ret tt);
     tcp_inbound := [0%nat];
     ws_inbound := [7%nat];
     interrupt := fun _ => Raise (Exn KeyboardInterrupt "") |}.

(** The start of a forwarding client that asks for [command]. *)
Definition forwarding (command : value) : State :=
{| config := <["forward" := VBool true]> (<["command" := command]> attributes);
   trace_of := [] |}.

End Example.

(** ** Traces and attribute writes *)

Lemma replay_app c tr1 tr2 : replay c (tr1 ++ tr2) = replay (replay c tr1) tr2.
Proof.
  revert c. induction tr1 as [|e tr1 IH]; intros c; [done|].
  destruct e; simpl; apply IH.
Qed.

Lemma replay_no_write c tr : Forall (fun e => ¬ is_write e) tr -> replay c tr = c.
Proof.
  induction 1 as [|e tr He _ IH]; [done|].
  destruct e; simpl in *; try apply IH; tauto.
Qed.

Lemma replay_lookup_other key c tr :
  Forall (fun e => ¬ writes_to key e) tr -> replay c tr !! key = c !! key.
Proof.
  intros H. revert c. induction H as [|e tr He _ IH]; intros c; [done|].
  destruct e; simpl in *; rewrite ?IH; try done; try tauto.
  by rewrite lookup_insert_ne.
Qed.

Section Emits.

Context (P : event -> Prop).

Lemma emits_ret {A} (a : A) : emits P (mret a).
Proof. intros s. exists []. by rewrite app_nil_r. Qed.

Lemma emits_raise {A} e : emits P (@raise A e).
Proof. intros s. exists []. by rewrite app_nil_r. Qed.

Lemma emits_getattr key : emits P (getattr key).
Proof.
intros s. exists []. unfold getattr.
destruct (config s !! key); by rewrite app_nil_r.
Qed.

Lemma emits_get_dict : emits P get_dict.
Proof. intros s. exists []. by rewrite app_nil_r. Qed.

Lemma emits_emit e : ¬ is_write e -> P e -> emits P (emit e).
Proof.
intros Hw He s. exists [e]. split_and!; [done| |by apply Forall_singleton].
by destruct e.
Qed.

Lemma emits_setattr key v : P (ESetAttr key v) -> emits P (setattr key v).
Proof.
intros He s. exists [ESetAttr key v]. split_and!; [done|done|].
by apply Forall_singleton.
Qed.

Lemma emits_py_setattr key v :
(key = "__dict__" -> forall d, P (ESetDict d)) ->
P (ESetAttr key v) -> emits P (py_setattr key v).
Proof.
intros Hdict Hset. unfold py_setattr.
destruct (String.eqb_spec key "__dict__") as [->|_].
- destruct v; try apply emits_raise.
  intros s. exists [ESetDict d]. split_and!; [done|done|].
  apply Forall_singleton. by apply Hdict.
- destruct (String.eqb key "__class__"); [apply emits_raise|].
  destruct (String.eqb key "__weakref__"); [apply emits_raise|].
  by apply emits_setattr.
Qed.

Lemma emits_call {A} e (answer : trace -> outcome A) :
¬ is_write e -> P e -> emits P (call e answer).
Proof.
intros Hw He s. exists [e]. split_and!; [done| |by apply Forall_singleton].
by destruct e.
Qed.

Lemma emits_bind {A B} (m : M A) (f : A -> M B) :
emits P m -> (forall a, emits P (f a)) -> emits P (m ≫= f).
Proof.
intros Hm Hf s. destruct (Hm s) as (tr & Ht & Hc & HP).
unfold mbind, M_bind. destruct (m s) as [[a|e|] s1]; simpl in *.
- destruct (Hf a s1) as (tr' & Ht' & Hc' & HP').
  exists (tr ++ tr'). rewrite Ht', Ht, Hc', Hc, replay_app, app_assoc.
  repeat split; auto. by apply Forall_app.
- by exists tr.
- by exists tr.
Qed.

Lemma emits_for_each {A} (f : A -> M unit) l :
(forall a, emits P (f a)) -> emits P (for_each f l).
Proof.
intros Hf. induction l as [|a l IH]; simpl.
- apply emits_ret.
- apply emits_bind; auto.
Qed.

Lemma emits_in_task {A} (m : M A) : emits P m -> emits P (in_task m).
Proof. intros Hm s. apply (Hm s). Qed.

Lemma emits_interrupted env {A} : emits P (@interrupted env A).
Proof.
intros s. exists []. unfold interrupted. by rewrite app_nil_r.
Qed.

Lemma emits_client_is_connected env c : emits P (client_is_connected env c).
Proof. intros s. exists []. by rewrite app_nil_r. Qed.

End Emits.

(** Decomposes an [emits] goal along the structure of the program. *)
Ltac emits_step :=
  match goal with
  | |- emits _ (_ ≫= _) => apply emits_bind; [|intros]
  | |- emits _ (mret _) => apply emits_ret
  | |- emits _ (raise _) => apply emits_raise
  | |- emits _ (getattr _) => apply emits_getattr
  | |- emits _ get_dict => apply emits_get_dict
  | |- emits _ (client_is_connected _ _) => apply emits_client_is_connected
  | |- emits _ interrupted => apply emits_interrupted
  | |- emits _ (in_task _) => apply emits_in_task
  | |- emits _ (for_each _ _) => apply emits_for_each; intros
  | |- emits _ (emit _) => apply emits_emit; simpl; try tauto
  | |- emits _ (print _) => apply emits_emit; simpl; try tauto
  | |- emits _ (info _) => apply emits_emit; simpl; try tauto
  | |- emits _ (warn _) => apply emits_emit; simpl; try tauto
  | |- emits _ (error _) => apply emits_emit; simpl; try tauto
  | |- emits _ (create_task _) => apply emits_emit; simpl; try tauto
  | |- emits _ (setattr _ _) => apply emits_setattr; simpl; try tauto
  | |- emits _ (py_setattr _ _) => apply emits_py_setattr; simpl; try tauto
  | |- emits _ (call _ _) => apply emits_call; simpl; try tauto
  | |- emits _ (await _ _) => apply emits_call; simpl; try tauto
  | |- emits _ (get_height_speed _ _) => apply emits_call; simpl; try tauto
  | |- emits _ (if ?b then _ else _) => destruct b
  | |- emits _ (match ?x with _ => _ end) => destruct x
  | |- emits _ (let '(_, _) := ?x in _) => destruct x
  end.

Ltac emits_auto := repeat emits_step.

(** ** What the functions leave alone *)

(** connect writes no attribute of config. *)
Lemma connect_emits env client attempt :
  emits (fun e => ¬ is_write e) (connect env client attempt).
Proof. unfold connect. emits_auto. Qed.

(** run_command writes no attribute of config either. *)
Lemma run_command_emits env client :
  emits (fun e => ¬ is_write e) (run_command env client).
Proof. unfold run_command, resolve_target, py_in, py_get. emits_auto. Qed.

Lemma emits_config (P : event -> Prop) {A} (m : M A) s :
  emits P m -> (forall e, P e -> ¬ is_write e) -> config (m s).2 = config s.
Proof.
  intros Hm HP. destruct (Hm s) as (tr & _ & Hc & Htr).
  rewrite Hc. apply replay_no_write. eapply Forall_impl; eauto.
Qed.

Lemma run_command_emits_device (P : event -> Prop) env client :
  (forall e, ¬ is_write e ->
             match e with EWriterClose _ | EPrint _ => False | _ => True end -> P e) ->
  emits P (run_command env client).
Proof.
  intros HP. unfold run_command, resolve_target, py_in, py_get.
  emits_auto; (apply HP; simpl; tauto).
Qed.

(** Unfolds the primitive operations and brings the trace into the form
    [trace_of s ++ events]. *)
Ltac unfold_ops :=
  unfold print, info, warn, error, create_task, await, get_height_speed,
    client_is_connected, call, emit, setattr, getattr, get_dict, raise, after,
    mbind, M_bind, mret, M_ret;
  simpl; rewrite <- ?app_assoc; simpl.

(** ** Running the code step by step *)

Lemma after_after s tr1 tr2 : after (after s tr1) tr2 = after s (tr1 ++ tr2).
Proof. unfold after. simpl. by rewrite app_assoc. Qed.

Lemma run_ret {A B} (a : A) (f : A -> M B) s : (mret a ≫= f) s = f a s.
Proof. done. Qed.

Lemma run_emit {B} e (f : unit -> M B) s : (emit e ≫= f) s = f tt (after s [e]).
Proof. done. Qed.

Lemma run_setattr {B} key v (f : unit -> M B) s :
  (setattr key v ≫= f) s
  = f tt {| config := <[key := v]> (config s); trace_of := trace_of s ++ [ESetAttr key v] |}.
Proof. done. Qed.

Lemma run_getattr {B} key v (f : value -> M B) s :
  config s !! key = Some v -> (getattr key ≫= f) s = f v s.
Proof. intros H. unfold mbind, M_bind, getattr. by rewrite H. Qed.

Lemma run_call {A B} e (answer : trace -> outcome A) a (f : A -> M B) s :
  answer (trace_of s) = Ret a -> (call e answer ≫= f) s = f a (after s [e]).
Proof. intros H. unfold mbind, M_bind, call. by rewrite H. Qed.


Lemma run_bind {A B} (m : M A) a s1 (f : A -> M B) s :
  m s = (Ret a, s1) -> (m ≫= f) s = f a s1.
Proof. intros H. unfold mbind, M_bind. by rewrite H. Qed.

Lemma run_bind_assoc {A B C} (m : M A) (f : A -> M B) (g : B -> M C) s :
  ((m ≫= f) ≫= g) s = (m ≫= (fun a => f a ≫= g)) s.
Proof. unfold mbind, M_bind. by destruct (m s) as [[?|?|] ?]. Qed.

Lemma bind_Ret_inv {A B} (m : M A) (f : A -> M B) s b s2 :
  (m ≫= f) s = (Ret b, s2) -> exists a s1, m s = (Ret a, s1) /\ f a s1 = (Ret b, s2).
Proof.
  unfold mbind, M_bind. destruct (m s) as [[a|?|] s1]; try done. by exists a, s1.
Qed.

Lemma end_emit e s : emit e s = (Ret tt, after s [e]).
Proof. done. Qed.

(** Evaluates the comparisons of closed values in the goal. *)
Ltac eval_tests :=
  repeat match goal with
  | |- context [py_eq ?a ?b] =>
      let r := eval vm_compute in (py_eq a b) in change (py_eq a b) with r
  | |- context [py_in_list ?a ?b] =>
      let r := eval vm_compute in (py_in_list a b) in change (py_in_list a b) with r
  end.

(** One step of the code: an event, an attribute read that a hypothesis
    answers, a collaborator call that a hypothesis answers. *)
Ltac run_step :=
  unfold print, info, warn, error, create_task, await, get_height_speed;
  first
    [ rewrite run_ret
    | rewrite run_emit
    | rewrite run_setattr
    | erewrite run_getattr by (simpl; eassumption)
    | erewrite run_call by (simpl; rewrite <- ?app_assoc; simpl; eassumption)
    | rewrite end_emit
    | rewrite run_bind_assoc ];
  rewrite ?after_after; cbn beta iota;
  cbn [app py_in py_get str_isnumeric py_int json_loads apply_forwarded_config];
  eval_tests; cbn iota.

Ltac run := repeat run_step.

(** ** ConnectionSupervisor: disconnect, connect and the disconnect callback *)

Lemma disconnect_not_connected env client s :
  is_connected env client (trace_of s) = false ->
  disconnect env client s = (Ret tt, s).
Proof.
  intros H. unfold disconnect, client_is_connected, mbind, M_bind. by rewrite H.
Qed.

Lemma disconnect_connected env client s :
  is_connected env client (trace_of s) = true ->
  disconnect env client s =
    (io env (EClientDisconnect client) (trace_of s ++ [ESetAttr "disconnecting" (VBool true)]),
     {| config := <["disconnecting" := VBool true]> (config s);
        trace_of := trace_of s ++ [ESetAttr "disconnecting" (VBool true);
                                   EClientDisconnect client] |}).
Proof.
  intros H. unfold disconnect, client_is_connected, mbind, M_bind. rewrite H.
  unfold setattr, await, call. simpl. rewrite <- app_assoc. simpl.
  by destruct (io env _ _).
Qed.

(** C2 (as amended).  When the client is connected, disconnect writes
    [disconnecting = True] and only then asks the transport to disconnect:
    the write is the event just before the request, and the configuration in
    force at the request has the flag set.  connect, whether it is given a
    client or makes one, and however it ends, leaves every attribute of
    config as it was: the flag is not cleared by a connection. *)
Theorem disconnect_sets_flag_connect_keeps_it env client s :
  is_connected env client (trace_of s) = true ->
  (exists o s1,
     disconnect env client s = (o, s1) /\
     trace_of s1 = trace_of s ++ [ESetAttr "disconnecting" (VBool true);
                                  EClientDisconnect client] /\
     config s1 !! "disconnecting" = Some (VBool true)) /\
  (forall existing attempt s', config (connect env existing attempt s').2 = config s').
Proof.
  intros H. split.
  - eexists _, _. split; [by apply disconnect_connected|]. simpl.
    split; [done|]. by rewrite lookup_insert_eq.
  - intros existing attempt s'.
    apply (emits_config _ _ _ (connect_emits env existing attempt)). auto.
Qed.

Lemma disconnect_sets_flag_connect_keeps_it_witness :
  (exists o s1,
     disconnect (Example.calm []) Example.client (Example.start VNone VNone) = (o, s1) /\
     trace_of s1 = [ESetAttr "disconnecting" (VBool true);
                    EClientDisconnect Example.client] /\
     config s1 !! "disconnecting" = Some (VBool true)) /\
  (forall existing attempt s',
     config (connect (Example.calm []) existing attempt s').2 = config s').
Proof.
  apply (disconnect_sets_flag_connect_keeps_it
           (Example.calm []) Example.client (Example.start VNone VNone)).
  reflexivity.
Defined.

(** C2 fails as stated.  The flag is unset at start-up.  A first session
    runs to its end, where the cleanup disconnects deliberately; the
    connection of the next session succeeds, and the disconnecting flag is
    still set after it. *)
Lemma connect_after_disconnect_flag_still_set :
  let env := Example.calm [] in
  let s0 := Example.start VNone VNone in
  let s1 := (manage env s0).2 in
  config s0 !! "disconnecting" = Some (VBool false) /\
  (manage env s0).1 = Ret 0 /\
  (connect env None 0 s1).1 = Ret Example.client /\
  config (connect env None 0 s1).2 !! "disconnecting" = Some (VBool true).
Proof. vm_compute. done. Qed.

(** C3.  When the transport reports a dropped link, the callback does
    nothing at all if the disconnecting flag is set, and otherwise schedules
    exactly one reconnect, [connect(client)]; after a disconnect issued by
    [disconnect] on a connected client the flag is set, so the drop that
    follows schedules nothing. *)
Theorem disconnect_callback_reconnects env client s flag :
  config s !! "disconnecting" = Some flag ->
  (truthy flag = true -> disconnect_callback client s = (Ret tt, s)) /\
  (truthy flag = false ->
     exists tr, disconnect_callback client s = (Ret tt, after s tr) /\
                filter (fun e => is_reconnect e = true) tr = [ECreateTask (TaskConnect client)] /\
                reconnects tr = 1%nat) /\
  (is_connected env client (trace_of s) = true ->
     forall o s1, disconnect env client s = (o, s1) ->
                  disconnect_callback client s1 = (Ret tt, s1)).
Proof.
  intros H. unfold disconnect_callback, mbind, M_bind, getattr.
  split_and!.
  - intros Ht. by rewrite H, Ht.
  - intros Ht. rewrite H, Ht. unfold_ops.
    by exists [EPrint (LLostConnection (address client)); ECreateTask (TaskConnect client)].
  - intros Hc o s1. rewrite (disconnect_connected _ _ _ Hc).
    intros [= <- <-]. simpl. by rewrite lookup_insert_eq.
Qed.

Lemma disconnect_callback_reconnects_witness :
  exists tr,
    disconnect_callback Example.client (Example.start VNone VNone)
      = (Ret tt, after (Example.start VNone VNone) tr) /\
    reconnects tr = 1%nat.
Proof.
  destruct (disconnect_callback_reconnects
              (Example.calm []) Example.client (Example.start VNone VNone) (VBool false))
    as (_ & (tr & H1 & _ & H2) & _); [reflexivity|reflexivity|].
  exists tr. split; assumption.
Defined.

(** ** CommandExecutor: run_command *)




Section ResolveTarget.

Context (env : Env) (s : State) (name : string) (favourites : gmap string Z).
Hypothesis Hmove : config s !! "move_to" = Some (VStr name).
Hypothesis Hfav : config s !! "favourites" = Some (VDict favourites).



(** A numeral of any script is a target when [int] reads it, and
[int] raises ValueError of the numeric text it does not read. *)
Lemma resolve_target_numeral h :
favourites !! name = None -> py_isnumeric (unicode env) name = true ->
int_of_str (unicode env) name = Some h ->
resolve_target env s
= (Ret (Some (Height_new (units env) h true)),
   after s [EInfo (MsgMovingToHeight (VStr name))]).
Proof.
intros Hout Hnum Hint. unfold resolve_target. run.
rewrite bool_decide_eq_false_2 by (rewrite Hout; by intros [??]). run.
rewrite Hnum. run. rewrite Hint. by run.
Qed.

Lemma resolve_target_int_raises :
favourites !! name = None -> py_isnumeric (unicode env) name = true ->
int_of_str (unicode env) name = None ->
resolve_target env s = (Raise (Exn ValueError "invalid literal for int()"), s).
Proof.
intros Hout Hnum Hint. unfold resolve_target. run.
rewrite bool_decide_eq_false_2 by (rewrite Hout; by intros [??]). run.
rewrite Hnum. run. rewrite Hint. by unfold mbind, M_bind, raise.
Qed.

Lemma resolve_target_invalid :
favourites !! name = None -> py_isnumeric (unicode env) name = false ->
resolve_target env s = (Ret None, after s [EError (MsgNotValid (VStr name))]).
Proof.
intros Hout Hnum. unfold resolve_target. run.
rewrite bool_decide_eq_false_2 by (rewrite Hout; by intros [??]). run.
rewrite Hnum. by run.
Qed.

End ResolveTarget.



(** C6.  run_command with command move-to, whose target string is neither a
    favourite nor numeric, numeric as [str.isnumeric] has it for every
    string, also of characters outside ASCII: it logs the error "Not a valid
    height or favourite position" and returns; after the initial reading the
    device is not contacted, neither [Desk.move_to] nor
    [Desk.watch_height_speed] is called.  The function returns normally, so nothing reaches the except
    clauses of the session: a session that connected, ran this command and
    cleaned up ends with status 0. *)
Theorem run_command_invalid_target env client s name favourites initial speed :
  config s !! "command" = Some (Commands.val Commands.move_to) ->
  config s !! "move_to" = Some (VStr name) ->
  config s !! "favourites" = Some (VDict favourites) ->
  Desk_get_height_speed env client (trace_of s) = Ret (initial, speed) ->
  favourites !! name = None ->
  py_isnumeric (unicode env) name = false ->
  run_command env client s = (Ret tt, after s (not_valid client initial name)) /\
  Forall (fun e => is_device_write e = false /\ is_watch e = false)
         (not_valid client initial name) /\
  (forall s0 forward s2,
     config s0 !! "forward" = Some forward -> truthy forward = false ->
     connect env None 0 s0 = (Ret client, s) ->
     manage_cleanup env (Some client) (after s (not_valid client initial name)) = (Ret tt, s2) ->
     manage env s0 = (Ret 0, s2)).
Proof.
  intros Hcommand Hmove Hfav Hread Hout Hnum.
  assert (Hrun : run_command env client s
                 = (Ret tt, after s (not_valid client initial name))).
  { unfold run_command. run.
    erewrite run_bind by (eapply resolve_target_invalid; simpl; eauto).
    cbn beta iota. by rewrite after_after. }
  split_and!; [done|by repeat constructor|].
  intros s0 forward s2 Hforward Hfalse Hconnect Hcleanup.
  assert (Hcfg : config s0 = config s).
  { pose proof (emits_config _ (connect env None 0) s0 (connect_emits env None 0)) as H.
    rewrite Hconnect in H. symmetry. apply H. auto. }
  unfold manage, manage_suite.
  erewrite run_getattr by eassumption. rewrite Hfalse.
  erewrite run_getattr by (rewrite Hcfg; eassumption). eval_tests. cbn iota.
  unfold manage_connect. erewrite run_bind by eassumption.
  unfold mret, M_ret, except_, manage_dispatch.
  erewrite run_getattr by eassumption. eval_tests. cbn iota.
  rewrite run_bind_assoc. erewrite run_getattr by eassumption. eval_tests. cbn iota.
  erewrite run_bind by eassumption.
  unfold mret, M_ret, finally_. by rewrite Hcleanup.
Qed.

Lemma run_command_invalid_target_witness :
  let env := Example.calm [] in
  let s0 := Example.start (VStr "move_to") (VStr "high") in
  let s := (connect env None 0 s0).2 in
  run_command env Example.client s
    = (Ret tt, after s (not_valid Example.client {| Height_value := 1300 |} "high")) /\
  (manage env s0).1 = Ret 0.
Proof.
  intros env s0 s.
  destruct (run_command_invalid_target env Example.client s "high"
              (list_to_map [("standing", 1100); ("sitting", 750)])
              {| Height_value := 1300 |} 0) as (Hrun & _ & Hsession);
    [reflexivity|reflexivity|reflexivity|reflexivity|reflexivity|reflexivity|].
  split; [exact Hrun|].
  rewrite (Hsession s0 (VBool false)
             (manage_cleanup env (Some Example.client)
                (after s (not_valid Example.client {| Height_value := 1300 |} "high"))).2);
    reflexivity.
Defined.

(** ** Session supervisor: manage *)

Section Manage.

Context (env : Env) (s : State) (forward command : value).
Hypothesis Hforward : config s !! "forward" = Some forward.
Hypothesis Hcommand : config s !! "command" = Some command.

Lemma manage_suite_forward :
  truthy forward = true ->
  manage_suite env s
  = (None, match forward_command env s with
           | (Ret _, s1) => (Ret 0, s1)
           | (Raise e, s1) => (Raise e, s1)
           | (Hang, s1) => (Hang, s1)
           end).
Proof.
  intros Ht. unfold manage_suite. erewrite run_getattr by eassumption.
  rewrite Ht. unfold mbind, M_bind.
  by destruct (forward_command env s) as [[[]|?|] ?].
Qed.

Lemma manage_suite_scan :
  truthy forward = false ->
  py_eq command (Commands.val Commands.scan_adapter) = true ->
  manage_suite env s
  = (None, match scan env s with
           | (Ret _, s1) => (Ret 0, s1)
           | (Raise e, s1) => (Raise e, s1)
           | (Hang, s1) => (Hang, s1)
           end).
Proof.
  intros Ht Hs. unfold manage_suite. erewrite run_getattr by eassumption.
  rewrite Ht. erewrite run_getattr by eassumption. rewrite Hs.
  unfold mbind at 1. unfold M_bind at 1.
  by destruct (scan env s) as [[?|?|] ?].
Qed.

Lemma manage_suite_connect :
  truthy forward = false ->
  py_eq command (Commands.val Commands.scan_adapter) = false ->
  manage_suite env s
  = match connect env None 0 s with
    | (Ret client, s1) => (Some client, manage_dispatch env client s1)
    | (Raise e, s1) =>
        if is_BleakError e || is_TimeoutError e
        then (None, (Ret 1, after s1 (connect_report e)))
        else (None, (Raise e, s1))
    | (Hang, s1) => (None, (Hang, s1))
    end.
Proof.
  intros Ht Hs. unfold manage_suite. erewrite run_getattr by eassumption.
  rewrite Ht. erewrite run_getattr by eassumption. rewrite Hs.
  unfold manage_connect, mbind, M_bind.
  destruct (connect env None 0 s) as [[client|e|] s1]; simpl; try done.
  unfold connect_report.
  destruct (is_BleakError e); simpl.
  - by destruct (str_contains _ _); unfold_ops.
  - destruct (is_TimeoutError e); [by unfold_ops|done].
Qed.

End Manage.

Lemma manage_dispatch_code env client s code s1 :
  manage_dispatch env client s = (Ret code, s1) -> code = 0.
Proof.
  unfold manage_dispatch. intros H.
  apply bind_Ret_inv in H as (v & s' & _ & H).
  apply bind_Ret_inv in H as (? & s'' & _ & H).
  by injection H as <- _.
Qed.

Lemma manage_except_Exception e :
  is_Exception e = true ->
  manage_except e = Some (for_each (fun ev => emit ev) (manage_report e);; mret 1).
Proof.
  intros He. unfold manage_except, manage_report.
  destruct (is_OSError e); [done|]. by rewrite He.
Qed.

(** C7.  The status manage returns.  With [forward] set and the forwarding
    client completing, or with command scan and the scan completing, or with
    a connection, the dispatched command completing and the cleanup
    completing, it is 0.  When connect raises a BleakError (the device was
    not found) or a timeout, it is 1; and when any exception of class
    Exception, OSError included, leaves the try suite, wherever it was
    raised, it is 1 once the cleanup completed. *)
Theorem manage_status env s forward command :
  config s !! "forward" = Some forward ->
  config s !! "command" = Some command ->
  (truthy forward = true ->
   forall s1, forward_command env s = (Ret tt, s1) -> manage env s = (Ret 0, s1)) /\
  (truthy forward = false ->
   py_eq command (Commands.val Commands.scan_adapter) = true ->
   forall devices s1, scan env s = (Ret devices, s1) -> manage env s = (Ret 0, s1)) /\
  (truthy forward = false ->
   py_eq command (Commands.val Commands.scan_adapter) = false ->
   forall client s1 code s2 s3,
     connect env None 0 s = (Ret client, s1) ->
     manage_dispatch env client s1 = (Ret code, s2) ->
     manage_cleanup env (Some client) s2 = (Ret tt, s3) ->
     manage env s = (Ret 0, s3)) /\
  (truthy forward = false ->
   py_eq command (Commands.val Commands.scan_adapter) = false ->
   forall e s1,
     connect env None 0 s = (Raise e, s1) ->
     is_BleakError e || is_TimeoutError e = true ->
     manage env s = (Ret 1, after s1 (connect_report e))) /\
  (forall client e s1 s2,
     manage_suite env s = (client, (Raise e, s1)) ->
     is_Exception e = true ->
     manage_cleanup env client (after s1 (manage_report e)) = (Ret tt, s2) ->
     manage env s = (Ret 1, s2)).
Proof.
  intros Hforward Hcommand. split_and!.
  - intros Ht s1 Hrun. unfold manage.
    rewrite (manage_suite_forward env s forward) by done. by rewrite Hrun.
  - intros Ht Hs devices s1 Hrun. unfold manage.
    rewrite (manage_suite_scan env s forward command) by done. by rewrite Hrun.
  - intros Ht Hs client s1 code s2 s3 Hconnect Hrun Hclean. unfold manage.
    rewrite (manage_suite_connect env s forward command) by done.
    rewrite Hconnect, Hrun. rewrite (manage_dispatch_code _ _ _ _ _ Hrun).
    unfold except_, finally_. by rewrite Hclean.
  - intros Ht Hs e s1 Hconnect He. unfold manage.
    rewrite (manage_suite_connect env s forward command) by done.
    by rewrite Hconnect, He.
  - intros client e s1 s2 Hsuite He Hclean. unfold manage. rewrite Hsuite.
    unfold except_. rewrite (manage_except_Exception e He).
    assert (Hreport : (for_each (fun ev => emit ev) (manage_report e);; mret 1) s1
                      = (Ret 1, after s1 (manage_report e))).
    { unfold manage_report. destruct (is_OSError e); simpl; by run. }
    rewrite Hreport. unfold finally_. by rewrite Hclean.
Qed.

Lemma manage_status_witness :
  (manage (Example.calm []) (Example.forwarding VNone)).1 = Ret 0 /\
  (manage (Example.calm []) (Example.start (VStr "scan_adapter") VNone)).1 = Ret 0 /\
  (manage (Example.calm []) (Example.start (VStr "move_to") (VStr "standing"))).1 = Ret 0 /\
  (manage (Example.failing (EClientConnect Example.client (VInt 10)) (Exn TimeoutError ""))
          (Example.start VNone VNone)).1 = Ret 1 /\
  (manage (Example.failing (EDeskMoveTo Example.client {| Height_value := 4800 |})
                           (Exn OSError "Broken pipe"))
          (Example.start (VStr "move_to") (VStr "standing"))).1 = Ret 1.
Proof.
  split_and!.
  - set (env := Example.calm []). set (s := Example.forwarding VNone).
    destruct (manage_status env s (VBool true) VNone) as (H & _);
      [reflexivity|reflexivity|].
    rewrite (H eq_refl (forward_command env s).2); [reflexivity|].
    vm_compute. reflexivity.
  - set (env := Example.calm []). set (s := Example.start (VStr "scan_adapter") VNone).
    destruct (manage_status env s (VBool false) (VStr "scan_adapter")) as (_ & H & _);
      [reflexivity|reflexivity|].
    rewrite (H eq_refl eq_refl [Example.desk; Example.lamp] (scan env s).2); [reflexivity|].
    vm_compute. reflexivity.
  - set (env := Example.calm []).
    set (s := Example.start (VStr "move_to") (VStr "standing")).
    destruct (manage_status env s (VBool false) (VStr "move_to")) as (_ & _ & H & _);
      [reflexivity|reflexivity|].
    pose (s1 := (connect env None 0 s).2).
    pose (s2 := (manage_dispatch env Example.client s1).2).
    rewrite (H eq_refl eq_refl Example.client s1 0 s2
               (manage_cleanup env (Some Example.client) s2).2);
      [reflexivity|vm_compute; reflexivity..].
  - set (env := Example.failing (EClientConnect Example.client (VInt 10))
                                 (Exn TimeoutError "")).
    set (s := Example.start VNone VNone).
    destruct (manage_status env s (VBool false) VNone) as (_ & _ & _ & H & _);
      [reflexivity|reflexivity|].
    rewrite (H eq_refl eq_refl (Exn TimeoutError "") (connect env None 0 s).2);
      [reflexivity|vm_compute; reflexivity..].
  - set (env := Example.failing (EDeskMoveTo Example.client {| Height_value := 4800 |})
                                 (Exn OSError "Broken pipe")).
    set (s := Example.start (VStr "move_to") (VStr "standing")).
    destruct (manage_status env s (VBool false) (VStr "move_to")) as (_ & _ & _ & _ & H);
      [reflexivity|reflexivity|].
    pose (s1 := (manage_suite env s).2.2).
    rewrite (H (Some Example.client) (Exn OSError "Broken pipe") s1
               (manage_cleanup env (Some Example.client)
                  (after s1 (manage_report (Exn OSError "Broken pipe")))).2);
      [reflexivity|vm_compute; reflexivity..].
Defined.

Lemma disconnect_emits env client : emits (fun _ => True) (disconnect env client).
Proof. unfold disconnect. emits_auto. Qed.

(** The cleanup of a session that has a client: "Disconnecting" is printed,
    [Desk.stop] is called and, when it returns, [disconnect] runs; the last
    print follows when [disconnect] returns. *)
Lemma manage_cleanup_trace env client s :
  exists o s2 rest,
    manage_cleanup env (Some client) s = (o, s2) /\
    trace_of s2 = trace_of s ++ [EPrint LDisconnecting; EDeskStop client] ++ rest /\
    (io env (EDeskStop client) (trace_of s ++ [EPrint LDisconnecting]) = Ret tt ->
     exists o' s3,
       disconnect env client (after s [EPrint LDisconnecting; EDeskStop client]) = (o', s3) /\
       trace_of s2 = trace_of s3 ++ match o' with Ret _ => [EPrint LDisconnected] | _ => [] end).
Proof.
  unfold manage_cleanup, print. rewrite run_emit. unfold await at 1.
  destruct (io env (EDeskStop client) (trace_of s ++ [EPrint LDisconnecting])) as [[]|e|] eqn:Hstop.
  - erewrite run_call by exact Hstop. rewrite after_after. simpl.
    destruct (disconnect env client (after s [EPrint LDisconnecting; EDeskStop client]))
      as [o' s3] eqn:Hdis.
    destruct (disconnect_emits env client
                (after s [EPrint LDisconnecting; EDeskStop client]))
      as (tr & Htr & _ & _).
    rewrite Hdis in Htr. simpl in Htr. rewrite <- app_assoc in Htr.
    unfold mbind, M_bind. rewrite Hdis.
    destruct o' as [[]|e|].
    + exists (Ret tt), (after s3 [EPrint LDisconnected]), (tr ++ [EPrint LDisconnected]).
      split_and!; [done|simpl; rewrite Htr; by rewrite <- !app_assoc|].
      intros _. by exists (Ret tt), s3.
    + exists (Raise e), s3, tr. split_and!; [done|done|].
      intros _. exists (Raise e), s3. by rewrite app_nil_r.
    + exists Hang, s3, tr. split_and!; [done|done|].
      intros _. exists Hang, s3. by rewrite app_nil_r.
  - unfold mbind, M_bind, call. simpl. rewrite Hstop.
    exists (Raise e), (after s [EPrint LDisconnecting; EDeskStop client]), [].
    unfold after. simpl. rewrite <- app_assoc. by split_and!.
  - unfold mbind, M_bind, call. simpl. rewrite Hstop.
    exists Hang, (after s [EPrint LDisconnecting; EDeskStop client]), [].
    unfold after. simpl. rewrite <- app_assoc. by split_and!.
Qed.

Lemma except_manage r s :
  exists o, except_ (r, s) manage_except = (o, after s (suite_report r)) /\
            (r <> Hang -> o <> Hang).
Proof.
  destruct r as [code|e|]; simpl.
  - exists (Ret code). unfold after. rewrite app_nil_r. by destruct s.
  - unfold manage_except, manage_report, is_Exception, is_OSError.
    destruct e as [[] msg]; simpl;
      (eexists; split; [by unfold_ops; rewrite ?app_nil_r; destruct s|done]).
  - exists Hang. unfold after. rewrite app_nil_r. by destruct s.
Qed.

Lemma suite_report_prints r : Forall (fun e => is_print e = true) (suite_report r).
Proof.
  destruct r as [?|e|]; simpl; try done.
  unfold manage_report. destruct (is_Exception e), (is_OSError e); by repeat constructor.
Qed.

(** C8.  A session in which connect returned a client, and whose command
    then returned or raised anything at all: before manage ends, and after
    everything the command and the except clauses did, [Desk.stop] is called
    on the client; when it returns, [disconnect] is called on the client
    next, and nothing but the final print follows. *)
Theorem manage_cleans_up env s forward command client s0 r s1 :
  config s !! "forward" = Some forward ->
  truthy forward = false ->
  config s !! "command" = Some command ->
  py_eq command (Commands.val Commands.scan_adapter) = false ->
  connect env None 0 s = (Ret client, s0) ->
  manage_dispatch env client s0 = (r, s1) ->
  r <> Hang ->
  exists report o s2 rest,
    Forall (fun e => is_print e = true) report /\
    manage env s = (o, s2) /\
    trace_of s2 = trace_of s1 ++ report ++ [EPrint LDisconnecting; EDeskStop client] ++ rest /\
    (io env (EDeskStop client) (trace_of s1 ++ report ++ [EPrint LDisconnecting]) = Ret tt ->
     exists o' s3,
       disconnect env client
         (after s1 (report ++ [EPrint LDisconnecting; EDeskStop client])) = (o', s3) /\
       trace_of s2 = trace_of s3 ++ match o' with Ret _ => [EPrint LDisconnected] | _ => [] end).
Proof.
  intros Hforward Ht Hcommand Hs Hconnect Hrun Hr.
  unfold manage. rewrite (manage_suite_connect env s forward command) by done.
  rewrite Hconnect, Hrun.
  destruct (except_manage r s1) as (o1 & -> & Ho1). specialize (Ho1 Hr).
  destruct (manage_cleanup_trace env client (after s1 (suite_report r)))
    as (o & s2 & rest & Hclean & Htrace & Hdis).
  exists (suite_report r), (match o with Ret _ => o1 | Raise e => Raise e | Hang => Hang end),
    s2, rest.
  split_and!.
  - apply suite_report_prints.
  - unfold finally_. rewrite Hclean. by destruct o1, o.
  - rewrite Htrace. simpl. by rewrite <- app_assoc.
  - intros Hstop. simpl in Hdis. rewrite <- app_assoc in Hdis.
    destruct (Hdis Hstop) as (o' & s3 & Hd & Hs3).
    exists o', s3. by rewrite <- after_after.
Qed.

Lemma manage_cleans_up_witness :
  let env := Example.failing (EDeskMoveTo Example.client {| Height_value := 4800 |})
                             (Exn OSError "Broken pipe") in
  let s := Example.start (VStr "move_to") (VStr "standing") in
  let s0 := (connect env None 0 s).2 in
  let s1 := (manage_dispatch env Example.client s0).2 in
  (manage_dispatch env Example.client s0).1 = Raise (Exn OSError "Broken pipe") /\
  exists report o s2 rest,
    Forall (fun e => is_print e = true) report /\
    manage env s = (o, s2) /\
    trace_of s2 = trace_of s1 ++ report
                    ++ [EPrint LDisconnecting; EDeskStop Example.client] ++ rest /\
    (io env (EDeskStop Example.client) (trace_of s1 ++ report ++ [EPrint LDisconnecting])
       = Ret tt ->
     exists o' s3,
       disconnect env Example.client
         (after s1 (report ++ [EPrint LDisconnecting; EDeskStop Example.client])) = (o', s3) /\
       trace_of s2 = trace_of s3 ++ match o' with Ret _ => [EPrint LDisconnected] | _ => [] end).
Proof.
  intros env s s0 s1. split; [vm_compute; reflexivity|].
  apply (manage_cleans_up env s (VBool false) (VStr "move_to") Example.client s0
           (Raise (Exn OSError "Broken pipe")) s1).
  - reflexivity.
  - reflexivity.
  - reflexivity.
  - reflexivity.
  - vm_compute. reflexivity.
  - vm_compute. reflexivity.
  - discriminate.
Defined.

(** ** Scan *)

Lemma run_for_each_emit {A B} (ev : A -> event) l (f : unit -> M B) s :
  (for_each (fun a => emit (ev a)) l ≫= f) s = f tt (after s (map ev l)).
Proof.
  revert s. induction l as [|a l IH]; intros s.
  - simpl. rewrite run_ret. unfold after. rewrite app_nil_r. by destruct s.
  - simpl. rewrite run_bind_assoc, run_emit, IH, after_after. done.
Qed.

(** scan returns what the scanner discovered, having printed the count and
    then each device once, whatever address is configured. *)
Lemma scan_lists_every_device env s adapter timeout devices :
  config s !! "adapter_name" = Some adapter ->
  config s !! "scan_timeout" = Some timeout ->
  discover env adapter timeout (trace_of s ++ [EPrint LScanning]) = Ret devices ->
  scan env s
  = (Ret devices,
     after s ([EPrint LScanning; EDiscover adapter timeout;
               EPrint (LFound (length devices) adapter)]
              ++ map (fun d => EPrint (LDevice d)) devices)).
Proof.
  intros Hadapter Htimeout Hdiscover. unfold scan. run.
  unfold print. by rewrite run_for_each_emit, after_after.
Qed.

(** C10 (the code departs from the claim and from its own docstring).  With
    the address AA:AA configured and two devices in range, scan prints and
    returns both of them, the one at BB:BB included: the configured address
    filters nothing. *)
Theorem scan_ignores_configured_address :
  let s := Example.start (VStr "scan_adapter") VNone in
  config s !! "mac_address" = Some (VStr "AA:AA") /\
  device_address Example.lamp = "BB:BB" /\
  scan (Example.calm []) s
  = (Ret [Example.desk; Example.lamp],
     after s [EPrint LScanning; EDiscover (VStr "hci0") (VInt 5);
              EPrint (LFound 2 (VStr "hci0"));
              EPrint (LDevice Example.desk); EPrint (LDevice Example.lamp)]).
Proof.
  intros s. split_and!; [reflexivity|reflexivity|].
  by rewrite (scan_lists_every_device (Example.calm []) s (VStr "hci0") (VInt 5)
                [Example.desk; Example.lamp]).
Qed.

(** ** Forwarding servers *)

Lemma py_setattr_plain key v : plain_key key = true -> py_setattr key v = setattr key v.
Proof.
  unfold plain_key, py_setattr. intros [[H1 H2]%andb_true_iff H3]%andb_true_iff.
  apply negb_true_iff in H1, H2, H3. by rewrite H1, H2, H3.
Qed.

(** Applying a descriptor of plain keys sets every key it carries,
    allow-listed or not. *)
Lemma apply_forwarded_config_object items s :
  forallb plain_key items.*1 = true ->
  apply_forwarded_config (JObject items) s
  = (Ret tt, {| config := foldl (fun c kv => <[kv.1 := kv.2]> c) (config s) items;
                trace_of := trace_of s ++ map (fun kv => ESetAttr kv.1 kv.2) items |}).
Proof.
  simpl. revert s. induction items as [|[key v] items IH]; intros s Hplain.
  - simpl. rewrite app_nil_r. by destruct s.
  - simpl in *. apply andb_true_iff in Hplain as [Hkey Hplain].
    rewrite (py_setattr_plain _ _ Hkey), run_setattr, IH by done.
    simpl. by rewrite <- app_assoc.
Qed.

(** The attributes that a descriptor does not name keep their values,
    unless it replaces the attribute dictionary. *)
Lemma apply_forwarded_config_other key j :
  key ∉ json_keys j -> "__dict__" ∉ json_keys j ->
  emits (fun e => ¬ writes_to key e) (apply_forwarded_config j).
Proof.
  intros Hkey Hdict. destruct j as [items|[e|]|]; simpl; try (emits_auto; done).
  simpl in Hkey, Hdict. induction items as [|[k v] items IH]; simpl.
  - apply emits_ret.
  - apply not_elem_of_cons in Hkey as [??]. apply not_elem_of_cons in Hdict as [??].
    apply emits_bind; [|intros; by apply IH].
    apply emits_py_setattr; simpl; [done|by intros ->].
Qed.

(** C1 (the code departs from the claim).  A descriptor that carries the key
    mac_address, which is not allow-listed, is applied by both server
    variants: the configured device address is AA:AA before the request and
    BB:BB after it. *)
Theorem forwarded_descriptor_sets_any_key :
  let env := Example.calm Example.rebind in
  let s := Example.start VNone VNone in
  ("mac_address" ∉ ALLOWED_KEYS) /\
  config s !! "mac_address" = Some (VStr "AA:AA") /\
  config (run_tcp_forwarded_command env Example.client 0 s).2 !! "mac_address"
    = Some (VStr "BB:BB") /\
  config (run_forwarded_command env Example.client 7 s).2 !! "mac_address"
    = Some (VStr "BB:BB").
Proof.
  intros env s. split_and!.
  - apply (bool_decide_unpack _). by vm_compute.
  - reflexivity.
  - vm_compute. reflexivity.
  - vm_compute. reflexivity.
Qed.

Lemma run_forwarded_command_unfold env client ws s :
  run_forwarded_command env client ws s
  = (receive_command env client ws;;
     await env (ESleep 1);;
     await env (EWsClose ws);;
     mret ws)
      {| config := <["log" := VSink (ForwardingSink ws)]> (config s);
         trace_of := trace_of s ++ [EPrint LReceivedCommand;
                                    ESetAttr "log" (VSink (ForwardingSink ws))] |}.
Proof.
  unfold run_forwarded_command, print.
  rewrite run_emit, run_setattr. simpl. by rewrite <- app_assoc.
Qed.


Lemma foldl_insert_other (items : descriptor) (c : gmap string value) key :
  key ∉ items.*1 ->
  foldl (fun c kv => <[kv.1 := kv.2]> c) c items !! key = c !! key.
Proof.
  revert c. induction items as [|[k v] items IH]; intros c Hkey; [done|].
  simpl in *. apply not_elem_of_cons in Hkey as [??].
  rewrite IH by done. by rewrite lookup_insert_ne.
Qed.

Lemma run_command_emits_other env client key :
  emits (fun e => ¬ writes_to key e) (run_command env client).
Proof.
  apply run_command_emits_device. intros e Hw _. destruct e; simpl in *; tauto.
Qed.







(** ** Forwarding client *)

Lemma py_in_list_allowed command :
  py_in_list command ALLOWED_COMMANDS = bool_decide (command ∈ ALLOWED_COMMANDS).
Proof.
  apply eq_true_iff_eq. rewrite bool_decide_eq_true.
  unfold py_in_list. rewrite existsb_exists. split.
  - intros (x & Hx & Heq). apply list_elem_of_In in Hx.
    assert (command = x) as ->; [|done].
    unfold ALLOWED_COMMANDS in Hx. rewrite !elem_of_cons, elem_of_nil in Hx.
    destruct Hx as [->|[->|[->|[]]]]; destruct command; simpl in Heq; try done;
      by apply String.eqb_eq in Heq as ->.
  - intros Hin. exists command. split; [by apply list_elem_of_In|].
    unfold ALLOWED_COMMANDS in Hin. rewrite !elem_of_cons, elem_of_nil in Hin.
    by destruct Hin as [->|[->|[->|[]]]].
Qed.

Lemma run_get_dict {B} (f : gmap string value -> M B) s :
  (get_dict ≫= f) s = f (config s) s.
Proof. done. Qed.

Lemma receive_loop_emits env (P : event -> Prop) :
  (forall e, is_device_event e = false -> is_discover e = false -> ¬ is_write e -> P e) ->
  emits P (receive_loop env).
Proof.
  intros HP s. unfold receive_loop.
  destruct (ws_frames env (trace_of s)) as [messages ending].
  assert (H : emits P
                (for_each (fun msg => emit EWsReceive;;
                                      match msg with
                                      | Some data => print (LFrame data)
                                      | None => mret tt
                                      end) messages;;
                 call EWsReceive (fun _ => ending)))
    by (emits_auto; (apply HP; [reflexivity|reflexivity|simpl; tauto])).
  apply H.
Qed.

Lemma call_first {A B} e (answer : trace -> outcome A) (f : A -> M B) s :
  (forall a, emits (fun _ => True) (f a)) ->
  exists rest, trace_of ((call e answer ≫= f) s).2 = trace_of s ++ e :: rest.
Proof.
  intros Hf. unfold mbind, M_bind, call.
  destruct (answer (trace_of s)) as [a|e'|]; simpl.
  - destruct (Hf a (after s [e])) as (rest & Htrace & _).
    exists rest. unfold after in Htrace. rewrite Htrace. simpl. by rewrite <- app_assoc.
  - by exists [].
  - by exists [].
Qed.

Lemma elem_of_forwarded c key v :
  (key, v) ∈ forwarded c <-> key ∈ ALLOWED_KEYS /\ c !! key = Some v.
Proof.
  unfold forwarded. rewrite list_elem_of_omap. split.
  - intros (k & Hk & Hv). destruct (c !! k) as [v'|] eqn:Hc; [|done].
    simpl in Hv. by injection Hv as <- <-.
  - intros [Hk Hc]. exists key. by rewrite Hc.
Qed.

(** C9.  forward_command with a command that is not in ALLOWED_COMMANDS
    prints the refusal and returns: that print is all it does, no session
    is made and no connection is opened.  With a command of
    ALLOWED_COMMANDS it makes a session, connects to the configured address
    and port and, the connection made, sends a descriptor that holds exactly
    the allow-listed attributes of config with their values. *)
Theorem forward_command_allow_list env s command :
  config s !! "command" = Some command ->
  (command ∉ ALLOWED_COMMANDS ->
   forward_command env s = (Ret tt, after s [EPrint LMustBeOneOf])) /\
  (command ∈ ALLOWED_COMMANDS ->
   forall addr port,
     config s !! "server_address" = Some addr ->
     config s !! "server_port" = Some port ->
     io env (EWsConnect addr port) (trace_of s ++ [EClientSession]) = Ret tt ->
     (forall key k, key ∈ ALLOWED_KEYS -> config s !! key ≠ Some (VSink k)) ->
     exists d rest,
       trace_of (forward_command env s).2
       = trace_of s ++ [EClientSession; EWsConnect addr port; EWsSendStr d] ++ rest /\
       (forall key v, (key, v) ∈ d <-> key ∈ ALLOWED_KEYS /\ config s !! key = Some v)).
Proof.
  intros Hcommand. split.
  - intros Hout. unfold forward_command. erewrite run_getattr by eassumption.
    rewrite py_in_list_allowed, bool_decide_eq_false_2 by done. by run.
  - intros Hin addr port Haddr Hport Hconnect Hplain.
    unfold forward_command. erewrite run_getattr by eassumption.
    rewrite py_in_list_allowed, bool_decide_eq_true_2 by done. cbn [negb].
    rewrite run_get_dict. cbn zeta. run.
    unfold json_dumps.
    destruct (existsb _ (forwarded (config s))) eqn:Hsink.
    { exfalso. apply existsb_exists in Hsink as ([key v] & Hkv & Hv).
      apply list_elem_of_In, elem_of_forwarded in Hkv as [Hkey Hlook].
      destruct v; try done. by apply (Hplain key k). }
    rewrite run_ret.
    match goal with
    | |- context [trace_of ((call ?e ?answer ≫= ?f) ?s0).2] =>
        destruct (call_first e answer f s0) as (rest & Hrest)
    end.
    { intros _. apply emits_bind; [by apply receive_loop_emits|intros; emits_auto]. }
    exists (forwarded (config s)), rest. split.
    + rewrite Hrest. simpl. by rewrite <- app_assoc.
    + apply elem_of_forwarded.
Qed.

Lemma forward_command_allow_list_witness :
  forward_command (Example.calm []) (Example.forwarding (VStr "server"))
  = (Ret tt, after (Example.forwarding (VStr "server")) [EPrint LMustBeOneOf]) /\
  exists d rest,
    trace_of (forward_command (Example.calm []) (Example.forwarding (VStr "watch"))).2
    = [EClientSession; EWsConnect (VStr "127.0.0.1") (VInt 9123); EWsSendStr d] ++ rest /\
    (forall key v, (key, v) ∈ d <->
       key ∈ ALLOWED_KEYS /\ config (Example.forwarding (VStr "watch")) !! key = Some v).
Proof.
  split.
  - destruct (forward_command_allow_list (Example.calm [])
                (Example.forwarding (VStr "server")) (VStr "server")) as [H _];
      [reflexivity|].
    apply H. apply (bool_decide_unpack _). by vm_compute.
  - destruct (forward_command_allow_list (Example.calm [])
                (Example.forwarding (VStr "watch")) (VStr "watch")) as [_ H];
      [reflexivity|].
    apply (H ltac:(apply (bool_decide_unpack _); by vm_compute)
             (VStr "127.0.0.1") (VInt 9123)); try reflexivity.
    intros key k Hkey.
    unfold ALLOWED_KEYS in Hkey. rewrite !elem_of_cons, elem_of_nil in Hkey.
    destruct Hkey as [->|[->|[->|[]]]]; vm_compute; discriminate.
Defined.

(** ** Further properties of run_command *)

Lemma scan_emits env (P : event -> Prop) :
  (forall e, is_device_event e = false -> ¬ is_write e -> P e) ->
  emits P (scan env).
Proof. intros HP. unfold scan. emits_auto; (apply HP; [reflexivity|simpl; tauto]). Qed.

Lemma forward_command_emits env (P : event -> Prop) :
  (forall e, is_device_event e = false -> is_discover e = false -> ¬ is_write e -> P e) ->
  emits P (forward_command env).
Proof.
  intros HP. unfold forward_command, json_dumps.
  emits_auto; try (apply HP; [reflexivity|reflexivity|simpl; tauto]).
  by apply receive_loop_emits.
Qed.

(** scan, run_command, forward_command and the disconnect callback only
    read Configuration: however they end, every attribute has the value it
    had before. *)
Theorem readers_keep_config env client s :
  config (scan env s).2 = config s /\
  config (run_command env client s).2 = config s /\
  config (forward_command env s).2 = config s /\
  config (disconnect_callback client s).2 = config s.
Proof.
  split_and!.
  - apply (emits_config (fun e => ¬ is_write e)); [by apply scan_emits|done].
  - apply (emits_config _ _ _ (run_command_emits env client)). done.
  - apply (emits_config (fun e => ¬ is_write e)); [by apply forward_command_emits|done].
  - apply (emits_config (fun e => ¬ is_write e)); [|done].
    unfold disconnect_callback. emits_auto.
Qed.

(** When the initial reading of the height does not return, run_command
    ends the same way at once: nothing is logged and, whatever the command,
    the desk is not contacted again. *)
Theorem run_command_reading_fails env client s :
  (forall e, Desk_get_height_speed env client (trace_of s) = Raise e ->
             run_command env client s = (Raise e, after s [EDeskGetHeightSpeed client])) /\
  (Desk_get_height_speed env client (trace_of s) = Hang ->
   run_command env client s = (Hang, after s [EDeskGetHeightSpeed client])).
Proof.
  unfold run_command, get_height_speed, mbind, M_bind, call, after.
  split; [intros e H|intros H]; by rewrite H.
Qed.

Lemma run_command_reading_fails_witness :
  run_command (Example.blind (Exn BleakError "Not connected")) Example.client
    (Example.start (VStr "move_to") (VStr "standing"))
  = (Raise (Exn BleakError "Not connected"),
     after (Example.start (VStr "move_to") (VStr "standing"))
       [EDeskGetHeightSpeed Example.client]).
Proof.
  apply (run_command_reading_fails (Example.blind (Exn BleakError "Not connected"))).
  reflexivity.
Defined.

(** With a command that is neither watch nor move-to (no command, or the
    command of a server that is serving), run_command reads the height, logs
    it and returns: that is all it does. *)
Theorem run_command_status_only env client s command initial speed :
  config s !! "command" = Some command ->
  py_eq command (Commands.val Commands.watch) = false ->
  py_eq command (Commands.val Commands.move_to) = false ->
  Desk_get_height_speed env client (trace_of s) = Ret (initial, speed) ->
  run_command env client s
  = (Ret tt, after s [EDeskGetHeightSpeed client; EDeskLogState initial]).
Proof.
  intros Hcommand Hw Hm Hread. unfold run_command, get_height_speed.
  erewrite run_call by eassumption. cbn beta iota. rewrite run_emit, after_after.
  erewrite run_getattr by (simpl; eassumption). rewrite Hw.
  erewrite run_getattr by (simpl; eassumption). by rewrite Hm.
Qed.

Lemma run_command_status_only_witness :
  run_command (Example.calm []) Example.client (Example.start (VStr "tcp_server") VNone)
  = (Ret tt, after (Example.start (VStr "tcp_server") VNone)
               [EDeskGetHeightSpeed Example.client;
                EDeskLogState {| Height_value := 1300 |}]).
Proof.
  apply (run_command_status_only (Example.calm []) Example.client
           (Example.start (VStr "tcp_server") VNone) (VStr "tcp_server")
           {| Height_value := 1300 |} 0); reflexivity.
Defined.

(** With command watch, run_command reads and logs the height, announces the
    watch and subscribes to the desk's updates; it ends as the subscription
    ends.  No move is issued, and no final height is read or reported. *)
Theorem run_command_watch env client s initial speed :
  config s !! "command" = Some (Commands.val Commands.watch) ->
  Desk_get_height_speed env client (trace_of s) = Ret (initial, speed) ->
  run_command env client s
  = (io env (EDeskWatchHeightSpeed client)
       (trace_of s ++ [EDeskGetHeightSpeed client; EDeskLogState initial; EInfo MsgWatching]),
     after s [EDeskGetHeightSpeed client; EDeskLogState initial; EInfo MsgWatching;
              EDeskWatchHeightSpeed client]).
Proof.
  intros Hcommand Hread. unfold run_command. run.
  unfold call, after. simpl. by rewrite <- app_assoc.
Qed.

Lemma run_command_watch_witness :
  run_command (Example.calm []) Example.client (Example.start (VStr "watch") VNone)
  = (Ret tt, after (Example.start (VStr "watch") VNone)
               [EDeskGetHeightSpeed Example.client;
                EDeskLogState {| Height_value := 1300 |}; EInfo MsgWatching;
                EDeskWatchHeightSpeed Example.client]).
Proof.
  apply (run_command_watch (Example.calm []) Example.client
           (Example.start (VStr "watch") VNone) {| Height_value := 1300 |} 0); reflexivity.
Defined.



(** A move-to target that is no string.  With no target at all ([None]),
    with a boolean or with a negative integer, as a descriptor can carry
    them, run_command logs the error of an invalid target and returns: the
    desk is not moved. *)
Theorem run_command_refuses_non_string env client s v favourites initial speed :
  config s !! "command" = Some (Commands.val Commands.move_to) ->
  config s !! "move_to" = Some v ->
  config s !! "favourites" = Some (VDict favourites) ->
  Desk_get_height_speed env client (trace_of s) = Ret (initial, speed) ->
  match v with
  | VNone | VBool _ => True
  | VInt n => n < 0
  | _ => False
  end ->
  run_command env client s
  = (Ret tt, after s [EDeskGetHeightSpeed client; EDeskLogState initial;
                      EError (MsgNotValid v)]).
Proof.
  intros Hcommand Hmove Hfav Hread Hv.
  unfold run_command. run. unfold resolve_target.
  destruct v as [|b|n| | |]; try done; run; try done.
  apply Z.leb_gt in Hv. rewrite Hv. by run.
Qed.

Lemma run_command_refuses_non_string_witness :
  run_command (Example.calm []) Example.client (Example.start (VStr "move_to") (VInt (-5)))
  = (Ret tt, after (Example.start (VStr "move_to") (VInt (-5)))
               [EDeskGetHeightSpeed Example.client;
                EDeskLogState {| Height_value := 1300 |};
                EError (MsgNotValid (VInt (-5)))]).
Proof.
  apply (run_command_refuses_non_string (Example.calm []) Example.client
           (Example.start (VStr "move_to") (VInt (-5))) (VInt (-5))
           (list_to_map [("standing", 1100); ("sitting", 750)])
           {| Height_value := 1300 |} 0); try reflexivity.
Defined.

(** ** Further properties of the forwarding servers *)

(** A request of the socket server whose bytes are not JSON: the handler
    raises the decoding error.  No attribute is set, the command is not run
    and the writer is not closed. *)
Theorem run_tcp_forwarded_command_malformed env client conn s :
  reader_read env conn (trace_of s ++ [EPrint LReceivedCommand]) = Ret JMalformed ->
  run_tcp_forwarded_command env client conn s
  = (Raise (Exn ValueError "JSONDecodeError"),
     after s [EPrint LReceivedCommand; EReaderRead conn]).
Proof.
  intros Hread. unfold run_tcp_forwarded_command. run.
  by unfold mbind, M_bind, raise.
Qed.

Lemma run_tcp_forwarded_command_malformed_witness :
  run_tcp_forwarded_command (Example.serving JMalformed None) Example.client 0
    (Example.start VNone VNone)
  = (Raise (Exn ValueError "JSONDecodeError"),
     after (Example.start VNone VNone) [EPrint LReceivedCommand; EReaderRead 0]).
Proof.
  apply (run_tcp_forwarded_command_malformed (Example.serving JMalformed None)).
  reflexivity.
Defined.

Lemma apply_forwarded_config_emits (P : event -> Prop) j :
  (forall e, is_write e -> P e) -> emits P (apply_forwarded_config j).
Proof.
  intros HP. unfold apply_forwarded_config. emits_auto; intros; by apply HP.
Qed.

(** The socket server's handler closes the writer exactly when it returns:
    the close is then its last act, and when reading, decoding, applying the
    descriptor or running the command raises or never ends, the writer is
    never closed. *)
Theorem run_tcp_forwarded_command_close env client conn s :
  exists tr,
    trace_of (run_tcp_forwarded_command env client conn s).2 = trace_of s ++ tr /\
    match (run_tcp_forwarded_command env client conn s).1 with
    | Ret _ => exists tr', tr = tr' ++ [EWriterClose conn] /\ EWriterClose conn ∉ tr'
    | _ => EWriterClose conn ∉ tr
    end.
Proof.
  pose (body := (print LReceivedCommand;;
                 request ← call (EReaderRead conn) (reader_read env conn);
                 forwarded_config ← json_loads request;
                 apply_forwarded_config forwarded_config;;
                 run_command env client) : M unit).
  assert (Hbody : emits (fun e => e <> EWriterClose conn) body).
  { unfold body, json_loads. emits_auto; try done.
    - apply apply_forwarded_config_emits. intros e He ->. exact He.
    - apply run_command_emits_device. intros e _ He ->. done. }
  assert (Heq : run_tcp_forwarded_command env client conn s
                = (body;; emit (EWriterClose conn)) s).
  { unfold run_tcp_forwarded_command, body, mbind, M_bind.
    destruct (print LReceivedCommand s) as [[[]|?|] s1]; [|done|done].
    destruct (call _ _ s1) as [[request|?|] s2]; [|done|done].
    destruct (json_loads request s2) as [[fc|?|] s3]; [|done|done].
    by destruct (apply_forwarded_config fc s3) as [[[]|?|] s4]. }
  rewrite Heq. destruct (Hbody s) as (tr & Htrace & _ & Hclose).
  rewrite Forall_forall in Hclose.
  assert (Hnot : EWriterClose conn ∉ tr) by (intros Hin; by apply (Hclose _ Hin)).
  unfold mbind, M_bind. destruct (body s) as [[[]|e|] s1]; simpl in *.
  - exists (tr ++ [EWriterClose conn]). rewrite Htrace, app_assoc. split; [done|].
    by exists tr.
  - by exists tr.
  - by exists tr.
Qed.

(** Whatever the socket server's handler receives and however it ends, an
    attribute that the received descriptor does not name keeps its value,
    provided the descriptor does not name [__dict__] either, whose
    assignment replaces all the attributes at once. *)
Theorem run_tcp_forwarded_command_other_keys env client conn s key :
  (forall j, reader_read env conn (trace_of s ++ [EPrint LReceivedCommand]) = Ret j ->
             (key ∉ json_keys j) /\ ("__dict__" ∉ json_keys j)) ->
  config (run_tcp_forwarded_command env client conn s).2 !! key = config s !! key.
Proof.
  intros Hkey.
  pose (tail := fun fc : json =>
                  (apply_forwarded_config fc;; run_command env client;;
                   emit (EWriterClose conn)) : M unit).
  assert (Htail : forall fc, key ∉ json_keys fc -> "__dict__" ∉ json_keys fc ->
                    emits (fun e => ¬ writes_to key e) (tail fc)).
  { intros fc Hfc Hdict. unfold tail. apply emits_bind; [|intros; apply emits_bind].
    - by apply apply_forwarded_config_other.
    - apply run_command_emits_other.
    - intros. emits_auto. }
  unfold run_tcp_forwarded_command, print. rewrite run_emit.
  unfold mbind at 1. unfold M_bind at 1. unfold call at 1. simpl.
  destruct (reader_read env conn _) as [j| |] eqn:Hread; [|done|done].
  destruct (Hkey j eq_refl) as [Hj Hdict].
  set (st := {| config := config s; trace_of := _ |}).
  assert (Hst : config (tail j st).2 !! key = config s !! key).
  { destruct (Htail j Hj Hdict st) as (tr & _ & Hconfig & Hwrites).
    rewrite Hconfig. by apply replay_lookup_other. }
  destruct j as [items|raises|]; cbn [json_loads].
  - by rewrite run_ret.
  - by rewrite run_ret.
  - by unfold mbind, M_bind, raise.
Qed.

Lemma run_tcp_forwarded_command_other_keys_witness :
  config (run_tcp_forwarded_command (Example.calm Example.standing) Example.client 0
            (Example.start VNone VNone)).2 !! "mac_address"
  = config (Example.start VNone VNone) !! "mac_address".
Proof.
  apply (run_tcp_forwarded_command_other_keys (Example.calm Example.standing)
           Example.client 0 (Example.start VNone VNone) "mac_address").
  intros j [= <-]. split; apply (bool_decide_unpack _); by vm_compute.
Defined.

Lemma foldl_insert_named (items : descriptor) (c : gmap string value) key v :
  NoDup items.*1 -> (key, v) ∈ items ->
  foldl (fun c kv => <[kv.1 := kv.2]> c) c items !! key = Some v.
Proof.
  revert c. induction items as [|[k v0] items IH]; intros c Hdup Hin.
  - by apply elem_of_nil in Hin.
  - simpl in *. apply NoDup_cons in Hdup as [Hk Hdup].
    apply elem_of_cons in Hin as [[= -> ->]|Hin].
    + rewrite foldl_insert_other by done. by rewrite lookup_insert_eq.
    + by apply IH.
Qed.

Lemma forwarded_keys c key :
  key ∈ (forwarded c).*1 <-> key ∈ ALLOWED_KEYS /\ is_Some (c !! key).
Proof.
  rewrite list_elem_of_fmap. split.
  - intros ([k v] & -> & [Hk Hv]%elem_of_forwarded). simpl. eauto.
  - intros [Hk [v Hv]]. exists (key, v). split; [done|]. by apply elem_of_forwarded.
Qed.

Lemma forwarded_NoDup c : NoDup (forwarded c).*1.
Proof.
  unfold forwarded, ALLOWED_KEYS. simpl.
  destruct (c !! "command"), (c !! "move_to"), (c !! "quiet"); simpl;
    apply (bool_decide_unpack _); by vm_compute.
Qed.

Lemma forwarded_plain c : forallb plain_key (forwarded c).*1 = true.
Proof.
  unfold forwarded, ALLOWED_KEYS. simpl.
  by destruct (c !! "command"), (c !! "move_to"), (c !! "quiet").
Qed.

Lemma run_tcp_forwarded_command_object env client conn s items :
  forallb plain_key items.*1 = true ->
  reader_read env conn (trace_of s ++ [EPrint LReceivedCommand]) = Ret (JObject items) ->
  config (run_tcp_forwarded_command env client conn s).2
  = foldl (fun c kv => <[kv.1 := kv.2]> c) (config s) items.
Proof.
  intros Hplain Hread. unfold run_tcp_forwarded_command. run.
  erewrite run_bind by (by apply apply_forwarded_config_object).
  set (st := {| config := _; trace_of := _ |}).
  pose proof (emits_config _ (run_command env client) st (run_command_emits env client)
                ltac:(done)) as Hkeep.
  unfold mbind, M_bind. by destruct (run_command env client st) as [[[]|?|] s2].
Qed.

(** The client and the socket server together.  When the server receives
    the descriptor that forward_command builds from a client configuration
    [c], the attributes command, move_to and quiet that [c] has take the
    client's values, and every other attribute of the server's Configuration
    keeps its value. *)
Theorem forwarded_descriptor_applied env client conn s c key :
  reader_read env conn (trace_of s ++ [EPrint LReceivedCommand])
    = Ret (JObject (forwarded c)) ->
  config (run_tcp_forwarded_command env client conn s).2 !! key
  = match (if bool_decide (key ∈ ALLOWED_KEYS) then c !! key else None) with
    | Some v => Some v
    | None => config s !! key
    end.
Proof.
  intros Hread.
  rewrite (run_tcp_forwarded_command_object _ _ _ _ _ (forwarded_plain c) Hread).
  destruct (bool_decide (key ∈ ALLOWED_KEYS)) eqn:Hallowed.
  - apply bool_decide_eq_true in Hallowed. destruct (c !! key) as [v|] eqn:Hc.
    + apply foldl_insert_named; [apply forwarded_NoDup|by apply elem_of_forwarded].
    + apply foldl_insert_other. rewrite forwarded_keys, Hc. by intros [_ [??]].
  - apply bool_decide_eq_false in Hallowed.
    apply foldl_insert_other. rewrite forwarded_keys. by intros [??].
Qed.

Lemma forwarded_descriptor_applied_witness :
  let c := config (Example.forwarding (VStr "watch")) in
  let s := Example.start VNone VNone in
  let s' := (run_tcp_forwarded_command (Example.serving (JObject (forwarded c)) None)
               Example.client 0 s).2 in
  config s' !! "command" = Some (VStr "watch") /\
  config s' !! "forward" = Some (VBool false).
Proof.
  intros c s s'. split.
  - unfold s'. rewrite (forwarded_descriptor_applied _ _ _ _ c); reflexivity.
  - unfold s'. rewrite (forwarded_descriptor_applied _ _ _ _ c); reflexivity.
Defined.

(** A request of the message server that brings no text message: the socket
    is already closed, or its first message is of another type.  The
    handler installs its sink, waits the second and closes the socket;
    it sets no other attribute and does not run a command. *)
Theorem run_forwarded_command_no_text env client ws s m :
  (forall e tr, io env e tr = Ret tt) ->
  ws_next env ws (trace_of s ++ [EPrint LReceivedCommand;
                                 ESetAttr "log" (VSink (ForwardingSink ws));
                                 EWsPrepare ws]) = Ret m ->
  m = None \/ m = Some WsOtherType ->
  run_forwarded_command env client ws s
  = (Ret ws,
     {| config := <["log" := VSink (ForwardingSink ws)]> (config s);
        trace_of := trace_of s ++ [EPrint LReceivedCommand;
                                   ESetAttr "log" (VSink (ForwardingSink ws));
                                   EWsPrepare ws; EWsNext ws; ESleep 1; EWsClose ws] |}).
Proof.
  intros Hio Hnext Hm. rewrite run_forwarded_command_unfold.
  unfold receive_command, await.
  rewrite run_bind_assoc, (run_call _ _ tt) by apply Hio.
  rewrite run_bind_assoc. erewrite run_call
    by (simpl; rewrite <- app_assoc; simpl; exact Hnext).
  rewrite after_after. simpl.
  destruct Hm as [-> | ->]; rewrite run_ret, !(run_call _ _ tt) by apply Hio;
    unfold after, mret, M_ret; simpl; by rewrite <- !app_assoc.
Qed.

Lemma run_forwarded_command_no_text_witness :
  (run_forwarded_command (Example.serving JMalformed None) Example.client 7
     (Example.start VNone VNone)).1 = Ret 7%nat.
Proof.
  rewrite (run_forwarded_command_no_text (Example.serving JMalformed None)
             Example.client 7 (Example.start VNone VNone) None);
    [reflexivity|reflexivity|reflexivity|by left].
Defined.

(** ** Further properties of the servers and of manage *)

Lemma interrupted_not_Ret env {A} s (a : A) s1 : interrupted env s <> (Ret a, s1).
Proof.
  unfold interrupted. by destruct (interrupt env (trace_of s)) as [[]| |].
Qed.

Lemma then_interrupted_not_Ret env {A B} (m : M A) s (b : B) s1 :
  (m ≫= fun _ => interrupted env) s <> (Ret b, s1).
Proof.
  intros H. apply bind_Ret_inv in H as (a & s' & _ & H).
  by apply interrupted_not_Ret in H.
Qed.

Lemma run_server_not_Ret env client s a s1 : run_server env client s <> (Ret a, s1).
Proof.
  intros H. unfold run_server in H.
  repeat (apply bind_Ret_inv in H as (? & ? & _ & H)).
  by apply interrupted_not_Ret in H.
Qed.

Lemma run_tcp_server_not_Ret env client s a s1 :
  run_tcp_server env client s <> (Ret a, s1).
Proof.
  intros H. unfold run_tcp_server in H.
  repeat (apply bind_Ret_inv in H as (? & ? & _ & H)).
  by apply interrupted_not_Ret in H.
Qed.

(** Neither server returns: run_server and run_tcp_server end only with an
    exception (a failure to start, a missing attribute, an interruption) or
    not at all. *)
Theorem servers_never_return env client s :
  (run_server env client s).1 <> Ret tt /\ (run_tcp_server env client s).1 <> Ret tt.
Proof.
  split.
  - destruct (run_server env client s) as [o s1] eqn:H. simpl. intros ->.
    by apply run_server_not_Ret in H.
  - destruct (run_tcp_server env client s) as [o s1] eqn:H. simpl. intros ->.
    by apply run_tcp_server_not_Ret in H.
Qed.

Lemma manage_suite_code env s client code s1 :
  manage_suite env s = (client, (Ret code, s1)) -> code = 0 \/ code = 1.
Proof.
  unfold manage_suite.
  destruct ((getattr "forward" ≫= _) s) as [[[c|cl]|e|] s0] eqn:H.
  - intros [= _ <- _].
    apply bind_Ret_inv in H as (forward & s2 & _ & H).
    destruct (truthy forward).
    { apply bind_Ret_inv in H as (? & ? & _ & [= <- _]). by left. }
    apply bind_Ret_inv in H as (command & s3 & _ & H).
    destruct (py_eq command _).
    { apply bind_Ret_inv in H as (? & ? & _ & [= <- _]). by left. }
    unfold manage_connect, except_ in H.
    destruct ((connect env None 0 ≫= _) s3) as [[?|e|] s4] eqn:Hc.
    + apply bind_Ret_inv in Hc as (? & ? & _ & [= <- _]). done.
    + destruct (is_BleakError e).
      { repeat (apply bind_Ret_inv in H as (? & ? & _ & H)).
        injection H as <- _. by right. }
      destruct (is_TimeoutError e); [|done].
      apply bind_Ret_inv in H as (? & ? & _ & [= <- _]). by right.
    + done.
  - intros [= _ Hd]. left. by apply manage_dispatch_code in Hd.
  - by intros [= _ ? _].
  - by intros [= _ ? _].
Qed.

Lemma manage_code env s code :
  (manage env s).1 = Ret code -> code = 0 \/ code = 1.
Proof.
  unfold manage. destruct (manage_suite env s) as [client [r s1]] eqn:Hsuite.
  assert (Hr : forall c s', except_ (r, s1) manage_except = (Ret c, s') -> c = 0 \/ c = 1).
  { destruct r as [c0|e|]; simpl.
    - intros c s' [= <- _]. by apply manage_suite_code in Hsuite.
    - unfold manage_except. intros c s'.
      destruct (is_OSError e).
      { intros H. repeat (apply bind_Ret_inv in H as (? & ? & _ & H)).
        injection H as <- _. by right. }
      destruct (is_Exception e); [|done].
      intros H. repeat (apply bind_Ret_inv in H as (? & ? & _ & H)).
      injection H as <- _. by right.
    - done. }
  destruct (except_ (r, s1) manage_except) as [o s2].
  unfold finally_. destruct o as [c| |]; simpl; try done.
  - destruct (manage_cleanup env client s2) as [[[]|?|] s3]; simpl; try done.
    intros [= <-]. by apply (Hr c s2).
  - by destruct (manage_cleanup env client s2) as [[[]|?|] s3].
Qed.

(** The status that manage returns is 0 or 1, whatever the configuration and
    whatever the collaborators do. *)
Theorem manage_returns_0_or_1 env s code :
  (manage env s).1 = Ret code -> code = 0 \/ code = 1.
Proof. apply manage_code. Qed.

Lemma manage_returns_0_or_1_witness :
  (0 = 0 \/ 0 = 1) /\ (manage (Example.calm []) (Example.start VNone VNone)).1 = Ret 0.
Proof.
  split; [|vm_compute; reflexivity].
  apply (manage_returns_0_or_1 (Example.calm []) (Example.start VNone VNone) 0).
  vm_compute. reflexivity.
Defined.

Lemma manage_end_not_0 env client r s1 :
  r <> Ret 0 ->
  (finally_ (except_ (r, s1) manage_except) (manage_cleanup env client)).1 <> Ret 0.
Proof.
  intros Hr.
  assert (H : forall s', except_ (r, s1) manage_except <> (Ret 0, s')).
  { destruct r as [c|e|]; simpl.
    - intros s' [= ->]. done.
    - unfold manage_except. intros s'.
      destruct (is_OSError e).
      { intros H. repeat (apply bind_Ret_inv in H as (? & ? & _ & H)). done. }
      destruct (is_Exception e); [|done].
      intros H. repeat (apply bind_Ret_inv in H as (? & ? & _ & H)). done.
    - done. }
  destruct (except_ (r, s1) manage_except) as [o s2].
  unfold finally_. destruct o as [c| |]; simpl; try done.
  - destruct (manage_cleanup env client s2) as [[[]|?|] s3]; simpl; try done.
    intros [= ->]. by apply (H s2).
  - by destruct (manage_cleanup env client s2) as [[[]|?|] s3].
Qed.

(** A session with [forward] unset whose command is one of the two servers
    never ends with status 0: when the connection fails, or the server
    cannot start, manage returns 1, and a server that was started ends only
    by an exception, which manage turns into status 1 or lets through after
    the cleanup.  (With [forward] set the command is not looked at by
    manage, and the session can return 0.) *)
Theorem server_session_never_returns_0 env s forward command :
  config s !! "forward" = Some forward ->
  truthy forward = false ->
  config s !! "command" = Some command ->
  command = Commands.val Commands.server \/ command = Commands.val Commands.tcp_server ->
  (manage env s).1 <> Ret 0.
Proof.
  intros Hforward Ht Hcommand Hserver. unfold manage.
  rewrite (manage_suite_connect env s forward command) by (by destruct Hserver as [->| ->]).
  pose proof (emits_config _ (connect env None 0) s (connect_emits env None 0)
                ltac:(done)) as Hkeep.
  destruct (connect env None 0 s) as [[client|e|] s1]; simpl in Hkeep.
  - destruct (manage_dispatch env client s1) as [r s2] eqn:Hrun.
    apply manage_end_not_0. intros ->.
    unfold manage_dispatch in Hrun.
    erewrite run_getattr in Hrun by (rewrite Hkeep; eassumption).
    apply bind_Ret_inv in Hrun as ([] & s3 & Hrun & _).
    destruct Hserver as [-> | ->]; simpl in Hrun.
    + by apply run_server_not_Ret in Hrun.
    + erewrite run_getattr in Hrun by (rewrite Hkeep; eassumption). simpl in Hrun.
      by apply run_tcp_server_not_Ret in Hrun.
  - destruct (is_BleakError e || is_TimeoutError e); by apply manage_end_not_0.
  - by apply manage_end_not_0.
Qed.

Lemma server_session_never_returns_0_witness :
  (manage (Example.calm Example.standing) (Example.start (VStr "tcp_server") VNone)).1
  <> Ret 0.
Proof.
  apply (server_session_never_returns_0 (Example.calm Example.standing)
           (Example.start (VStr "tcp_server") VNone) (VBool false) (VStr "tcp_server"));
    [reflexivity|reflexivity|reflexivity|by right].
Defined.

Lemma print_not_device e : is_print e = true -> is_device_event e = false.
Proof. by destruct e. Qed.

Lemma print_not_discover e : is_print e = true -> is_discover e = false.
Proof. by destruct e. Qed.

(** A forwarding client and a scan need no connection: in a session with
    [forward] set, or with [forward] unset and command scan, manage
    constructs no BleakClient and calls neither a client (connect,
    disconnect) nor the desk, and there is no cleanup.  With [forward] set
    there is no discovery either; a scan does call
    [BleakScanner().discover]. *)
Theorem manage_without_device env s forward command :
  config s !! "forward" = Some forward ->
  config s !! "command" = Some command ->
  truthy forward = true \/
  truthy forward = false /\ py_eq command (Commands.val Commands.scan_adapter) = true ->
  exists tr,
    trace_of (manage env s).2 = trace_of s ++ tr /\
    Forall (fun e => is_device_event e = false) tr /\
    (truthy forward = true -> Forall (fun e => is_discover e = false) tr).
Proof.
  intros Hforward Hcommand Hmode.
  assert (Hend : forall (P : event -> Prop) (m : M unit),
            (forall e, is_print e = true -> P e) ->
            emits P m ->
            manage_suite env s
            = (None, match m s with
                     | (Ret _, s1) => (Ret 0, s1)
                     | (Raise e, s1) => (Raise e, s1)
                     | (Hang, s1) => (Hang, s1)
                     end) ->
            exists tr, trace_of (manage env s).2 = trace_of s ++ tr /\ Forall P tr).
  { intros P m HP Hm Hsuite. unfold manage. rewrite Hsuite.
    destruct (Hm s) as (tr & Htrace & _ & Hno).
    set (r := match (m s).1 with Ret _ => Ret 0 | Raise e => Raise e | Hang => Hang end).
    assert (Hrs : match m s with
                  | (Ret _, s1) => (Ret 0, s1)
                  | (Raise e, s1) => (Raise e, s1)
                  | (Hang, s1) => (Hang, s1)
                  end = (r, (m s).2)) by (unfold r; by destruct (m s) as [[?|?|] ?]).
    rewrite Hrs. destruct (except_manage r (m s).2) as (o & -> & _).
    exists (tr ++ suite_report r). split.
    - unfold finally_, manage_cleanup, mret, M_ret.
      destruct o; simpl; by rewrite Htrace, app_assoc.
    - apply Forall_app. split; [done|].
      eapply Forall_impl; [apply suite_report_prints|]. apply HP. }
  destruct Hmode as [Ht | [Ht Hs]].
  - destruct (Hend (fun e => is_device_event e = false /\ is_discover e = false)
                (forward_command env)) as (tr & Htrace & Htr).
    + intros e He. split; [by apply print_not_device|by apply print_not_discover].
    + apply forward_command_emits. by intros e ? ? _.
    + by apply (manage_suite_forward env s forward).
    + exists tr. split; [done|]. split; [|intros _].
      * eapply Forall_impl; [exact Htr|]. by intros e [? _].
      * eapply Forall_impl; [exact Htr|]. by intros e [_ ?].
  - destruct (Hend (fun e => is_device_event e = false) (scan env ≫= fun _ => mret tt))
      as (tr & Htrace & Htr).
    + apply print_not_device.
    + apply emits_bind; [by apply scan_emits|intros; apply emits_ret].
    + rewrite (manage_suite_scan env s forward command) by done.
      unfold mbind, M_bind. by destruct (scan env s) as [[?|?|] ?].
    + exists tr. split; [done|]. split; [done|]. intros Ht'. congruence.
Qed.

Lemma manage_without_device_witness :
  exists tr,
    trace_of (manage (Example.calm []) (Example.forwarding VNone)).2 = [] ++ tr /\
    Forall (fun e => is_device_event e = false) tr /\
    (truthy (VBool true) = true -> Forall (fun e => is_discover e = false) tr).
Proof.
  apply (manage_without_device (Example.calm []) (Example.forwarding VNone)
           (VBool true) VNone); [reflexivity|reflexivity|by left].
Defined.

(** ** Further properties of connect, scan, forward_command and main *)

Lemma getattr_Ret_inv key s v s1 :
  getattr key s = (Ret v, s1) -> config s !! key = Some v /\ s1 = s.
Proof.
  unfold getattr. destruct (config s !! key); [|done]. by intros [= <- <-].
Qed.

Lemma emit_Ret_inv e s a s1 : emit e s = (Ret a, s1) -> s1 = after s [e].
Proof. by intros [= _ <-]. Qed.

Lemma connect_emits_existing env c attempt :
  emits (fun e => match e with ENewClient _ => False | _ => True end)
        (connect env (Some c) attempt).
Proof. unfold connect. emits_auto. Qed.

(** The client that connect returns.  Given a client, as for a reconnect,
    connect returns that very client and constructs none; given none, it
    returns a client bound to the configured mac_address and
    adapter_name. *)
Theorem connect_returns_handle env existing attempt s client s1 :
  connect env existing attempt s = (Ret client, s1) ->
  match existing with
  | Some c =>
      client = c /\
      exists tr, trace_of s1 = trace_of s ++ tr /\
                 Forall (fun e => match e with ENewClient _ => False | _ => True end) tr
  | None =>
      config s !! "mac_address" = Some (address client) /\
      config s !! "adapter_name" = Some (device client)
  end.
Proof.
  intros H. destruct existing as [c|].
  - destruct (connect_emits_existing env c attempt s) as (tr & Htrace & _ & Hno).
    rewrite H in Htrace. split; [|by exists tr].
    unfold connect in H.
    repeat (apply bind_Ret_inv in H as (? & ? & ? & H)).
    injection H as <- _.
    match goal with Hc : mret c _ = _ |- _ => by injection Hc as <- _ end.
  - unfold connect in H.
    apply bind_Ret_inv in H as ([] & s2 & ->%emit_Ret_inv & H).
    apply bind_Ret_inv in H as (c & s3 & Hc & H).
    repeat (apply bind_Ret_inv in H as (? & ? & _ & H)).
    injection H as <- _.
    apply bind_Ret_inv in Hc as (mac & s4 & [Hmac ->]%getattr_Ret_inv & Hc).
    apply bind_Ret_inv in Hc as (adapter & s5 & [Hadapter ->]%getattr_Ret_inv & Hc).
    by apply bind_Ret_inv in Hc as ([] & s6 & _ & [= <- _]).
Qed.

Lemma connect_returns_handle_witness :
  config (Example.start VNone VNone) !! "mac_address" = Some (address Example.client) /\
  config (Example.start VNone VNone) !! "adapter_name" = Some (device Example.client).
Proof.
  apply (connect_returns_handle (Example.calm []) None 0 (Example.start VNone VNone)
           Example.client (connect (Example.calm []) None 0 (Example.start VNone VNone)).2).
  vm_compute. reflexivity.
Defined.

(** When the transport cannot connect, connect raises what the transport
    raised, right after the attempt: "Connected" is not printed and the
    desk's initialisation is not started. *)
Theorem connect_transport_fails env attempt s mac adapter timeout e :
  config s !! "mac_address" = Some mac ->
  config s !! "adapter_name" = Some adapter ->
  config s !! "connection_timeout" = Some timeout ->
  io env (EClientConnect {| address := mac; device := adapter |} timeout)
     (trace_of s ++ [EPrint LConnecting; ENewClient {| address := mac; device := adapter |}])
    = Raise e ->
  connect env None attempt s
  = (Raise e,
     after s [EPrint LConnecting; ENewClient {| address := mac; device := adapter |};
              EClientConnect {| address := mac; device := adapter |} timeout]).
Proof.
  intros Hmac Hadapter Htimeout Hfail. unfold connect. run.
  unfold mbind, M_bind, call. simpl. rewrite <- ?app_assoc. simpl. rewrite Hfail.
  unfold after. simpl. by rewrite <- ?app_assoc.
Qed.

Lemma connect_transport_fails_witness :
  connect (Example.failing (EClientConnect Example.client (VInt 10)) (Exn TimeoutError ""))
    None 0 (Example.start VNone VNone)
  = (Raise (Exn TimeoutError ""),
     after (Example.start VNone VNone)
       [EPrint LConnecting; ENewClient Example.client;
        EClientConnect Example.client (VInt 10)]).
Proof.
  apply (connect_transport_fails
           (Example.failing (EClientConnect Example.client (VInt 10)) (Exn TimeoutError ""))
           0 (Example.start VNone VNone) (VStr "AA:AA") (VStr "hci0") (VInt 10));
    reflexivity.
Defined.

(** A session whose connection is made by the transport but whose
    initialisation of the desk then raises a BleakError: manage reports the
    failed connection and returns 1.  The local variable client was never
    assigned, so there is no cleanup: the connected client is neither
    stopped nor disconnected. *)
Theorem manage_initialise_fails env s forward command mac adapter timeout e :
  config s !! "forward" = Some forward ->
  truthy forward = false ->
  config s !! "command" = Some command ->
  py_eq command (Commands.val Commands.scan_adapter) = false ->
  config s !! "mac_address" = Some mac ->
  config s !! "adapter_name" = Some adapter ->
  config s !! "connection_timeout" = Some timeout ->
  (forall ev tr, ev <> EDeskInitialise {| address := mac; device := adapter |} ->
                 io env ev tr = Ret tt) ->
  (forall tr, io env (EDeskInitialise {| address := mac; device := adapter |}) tr = Raise e) ->
  is_BleakError e = true ->
  manage env s
  = (Ret 1,
     after s ([EPrint LConnecting; ENewClient {| address := mac; device := adapter |};
               EClientConnect {| address := mac; device := adapter |} timeout;
               EPrint (LConnected mac);
               EDeskInitialise {| address := mac; device := adapter |}]
              ++ connect_report e)).
Proof.
  intros Hforward Ht Hcommand Hs Hmac Hadapter Htimeout Hio Hinit He.
  unfold manage. rewrite (manage_suite_connect env s forward command) by done.
  assert (Hconnect : connect env None 0 s
            = (Raise e,
               after s [EPrint LConnecting; ENewClient {| address := mac; device := adapter |};
                        EClientConnect {| address := mac; device := adapter |} timeout;
                        EPrint (LConnected mac);
                        EDeskInitialise {| address := mac; device := adapter |}])).
  { unfold connect. run.
    rewrite (run_call _ _ tt) by (by apply Hio). rewrite after_after. simpl. run.
    unfold mbind, M_bind, call. rewrite Hinit. unfold after. simpl.
    by rewrite <- ?app_assoc. }
  rewrite Hconnect, He. simpl. unfold mret, M_ret. by rewrite after_after.
Qed.

Lemma manage_initialise_fails_witness :
  manage (Example.failing (EDeskInitialise Example.client) (Exn BleakError "handshake"))
    (Example.start VNone VNone)
  = (Ret 1,
     after (Example.start VNone VNone)
       ([EPrint LConnecting; ENewClient Example.client;
         EClientConnect Example.client (VInt 10); EPrint (LConnected (VStr "AA:AA"));
         EDeskInitialise Example.client]
        ++ connect_report (Exn BleakError "handshake"))).
Proof.
  apply (manage_initialise_fails
           (Example.failing (EDeskInitialise Example.client) (Exn BleakError "handshake"))
           (Example.start VNone VNone) (VBool false) VNone
           (VStr "AA:AA") (VStr "hci0") (VInt 10)); try reflexivity.
  intros ev tr Hev. unfold Example.failing. simpl. by rewrite decide_False.
Defined.

(** scan ends as the discovery ends.  What was discovered is returned as it
    is, after the count and one line for each device, in order; an empty
    discovery gives the count 0 and the empty list.  When the discovery
    raises or never ends, scan does the same, having printed only
    "Scanning". *)
Theorem scan_outcome env s adapter timeout :
  config s !! "adapter_name" = Some adapter ->
  config s !! "scan_timeout" = Some timeout ->
  scan env s
  = match discover env adapter timeout (trace_of s ++ [EPrint LScanning]) with
    | Ret devices =>
        (Ret devices,
         after s ([EPrint LScanning; EDiscover adapter timeout;
                   EPrint (LFound (length devices) adapter)]
                  ++ map (fun d => EPrint (LDevice d)) devices))
    | Raise e => (Raise e, after s [EPrint LScanning; EDiscover adapter timeout])
    | Hang => (Hang, after s [EPrint LScanning; EDiscover adapter timeout])
    end.
Proof.
  intros Hadapter Htimeout.
  destruct (discover env adapter timeout _) as [devices|e|] eqn:Hdiscover.
  - by apply scan_lists_every_device.
  - unfold scan. run. unfold mbind, M_bind, call, after. simpl.
    rewrite Hdiscover. by rewrite <- ?app_assoc.
  - unfold scan. run. unfold mbind, M_bind, call, after. simpl.
    rewrite Hdiscover. by rewrite <- ?app_assoc.
Qed.

Lemma scan_outcome_witness :
  scan (Example.blind (Exn BleakError "No adapter")) (Example.start (VStr "scan_adapter") VNone)
  = (Raise (Exn BleakError "No adapter"),
     after (Example.start (VStr "scan_adapter") VNone)
       [EPrint LScanning; EDiscover (VStr "hci0") (VInt 5)]).
Proof.
  rewrite (scan_outcome (Example.blind (Exn BleakError "No adapter"))
             (Example.start (VStr "scan_adapter") VNone) (VStr "hci0") (VInt 5));
    reflexivity.
Defined.

Lemma json_dumps_forwarded (c : gmap string value) s :
  (forall key k, key ∈ ALLOWED_KEYS -> c !! key ≠ Some (VSink k)) ->
  json_dumps (forwarded c) s = (Ret (forwarded c), s).
Proof.
  intros Hplain. unfold json_dumps.
  destruct (existsb _ (forwarded c)) eqn:Hsink; [|done].
  exfalso. apply existsb_exists in Hsink as ([key v] & Hkv & Hv).
  apply list_elem_of_In, elem_of_forwarded in Hkv as [Hkey Hlook].
  destruct v; try done. by apply (Hplain key k).
Qed.

Lemma run_receive_frames {B} messages (f : unit -> M B) s :
  (for_each (fun msg => emit EWsReceive;;
                        match msg with
                        | Some data => print (LFrame data)
                        | None => mret tt
                        end) messages ≫= f) s
  = f tt (after s (received messages)).
Proof.
  revert s. induction messages as [|[data|] messages IH]; intros s.
  - simpl. rewrite run_ret. unfold after. rewrite app_nil_r. by destruct s.
  - simpl. unfold print. rewrite !run_bind_assoc, run_emit. cbn beta.
    rewrite ?run_bind_assoc, run_emit. cbn beta. by rewrite IH, !after_after.
  - simpl. rewrite !run_bind_assoc, run_emit. cbn beta.
    rewrite ?run_bind_assoc, run_ret. by rewrite IH, !after_after.
Qed.

Lemma run_receive_loop {B} env (f : unit -> M B) s messages ending :
  ws_frames env (trace_of s) = (messages, ending) ->
  (receive_loop env ≫= f) s
  = match ending with
    | Ret _ => f tt (after s (received messages ++ [EWsReceive]))
    | Raise e => (Raise e, after s (received messages ++ [EWsReceive]))
    | Hang => (Hang, after s (received messages ++ [EWsReceive]))
    end.
Proof.
  intros Hframes. unfold mbind at 1. unfold M_bind at 1. unfold receive_loop.
  rewrite Hframes, run_receive_frames. unfold call, after. simpl.
  rewrite <- app_assoc. by destruct ending as [[]|?|].
Qed.

(** When the connection to the server cannot be opened, forward_command
    raises what the connection attempt raised: nothing is sent, and the
    session that was created is not closed. *)
Theorem forward_command_connect_fails env s command addr port e :
  config s !! "command" = Some command ->
  command ∈ ALLOWED_COMMANDS ->
  config s !! "server_address" = Some addr ->
  config s !! "server_port" = Some port ->
  io env (EWsConnect addr port) (trace_of s ++ [EClientSession]) = Raise e ->
  forward_command env s = (Raise e, after s [EClientSession; EWsConnect addr port]).
Proof.
  intros Hcommand Hin Haddr Hport Hfail.
  unfold forward_command. erewrite run_getattr by eassumption.
  rewrite py_in_list_allowed, bool_decide_eq_true_2 by done. cbn [negb].
  rewrite run_get_dict. cbn zeta. run.
  unfold mbind, M_bind, call, after. simpl. rewrite Hfail. by rewrite <- ?app_assoc.
Qed.

Lemma forward_command_connect_fails_witness :
  forward_command
    (Example.failing (EWsConnect (VStr "127.0.0.1") (VInt 9123)) (Exn OSError "refused"))
    (Example.forwarding VNone)
  = (Raise (Exn OSError "refused"),
     after (Example.forwarding VNone)
       [EClientSession; EWsConnect (VStr "127.0.0.1") (VInt 9123)]).
Proof.
  apply (forward_command_connect_fails
           (Example.failing (EWsConnect (VStr "127.0.0.1") (VInt 9123))
              (Exn OSError "refused"))
           (Example.forwarding VNone) VNone); try reflexivity.
  apply (bool_decide_unpack _). by vm_compute.
Defined.

(** A forwarding that goes through.  forward_command sends the descriptor
    and receives message after message: every text frame is printed, once
    and in order, and a message of another type that is neither closed nor
    error (close, closing, binary, ping) is passed over, each of them one
    receive.  When a receive brings closed or error, the socket and then
    the session are closed and forward_command returns.  When a receive
    raises or never ends instead, neither is closed.  [messages] are the
    messages before that last receive, [Some data] for a text frame and
    [None] for a message that is passed over. *)
Theorem forward_command_relays_frames env s command addr port messages ending :
  config s !! "command" = Some command ->
  command ∈ ALLOWED_COMMANDS ->
  config s !! "server_address" = Some addr ->
  config s !! "server_port" = Some port ->
  (forall key k, key ∈ ALLOWED_KEYS -> config s !! key ≠ Some (VSink k)) ->
  (forall e tr, io env e tr = Ret tt) ->
  ws_frames env (trace_of s ++ [EClientSession; EWsConnect addr port;
                                EWsSendStr (forwarded (config s))]) = (messages, ending) ->
  forward_command env s
  = (ending,
     after s ([EClientSession; EWsConnect addr port; EWsSendStr (forwarded (config s))]
              ++ received messages ++ [EWsReceive]
              ++ match ending with
                 | Ret _ => [EWsCloseClient; ESessionClose]
                 | _ => []
                 end)).
Proof.
  intros Hcommand Hin Haddr Hport Hplain Hio Hframes.
  unfold forward_command. erewrite run_getattr by eassumption.
  rewrite py_in_list_allowed, bool_decide_eq_true_2 by done. cbn [negb].
  rewrite run_get_dict. cbn zeta. run.
  rewrite (run_call _ _ tt) by apply Hio. rewrite after_after. simpl.
  erewrite run_bind by (by apply json_dumps_forwarded).
  rewrite (run_call _ _ tt) by apply Hio. rewrite after_after. simpl.
  erewrite run_receive_loop by (simpl; exact Hframes).
  destruct ending as [[]|e|].
  - rewrite (run_call _ _ tt) by apply Hio. unfold call. rewrite Hio.
    unfold after. simpl. by rewrite <- !app_assoc.
  - unfold after. simpl. by rewrite <- ?app_assoc, ?app_nil_r.
  - unfold after. simpl. by rewrite <- ?app_assoc, ?app_nil_r.
Qed.

Lemma forward_command_relays_frames_witness :
  forward_command (Example.calm []) (Example.forwarding (VStr "watch"))
  = (Ret tt,
     after (Example.forwarding (VStr "watch"))
       ([EClientSession; EWsConnect (VStr "127.0.0.1") (VInt 9123);
         EWsSendStr (forwarded (config (Example.forwarding (VStr "watch"))))]
        ++ received [Some "Final height"; None] ++ [EWsReceive]
        ++ [EWsCloseClient; ESessionClose])).
Proof.
  apply (forward_command_relays_frames (Example.calm [])
           (Example.forwarding (VStr "watch")) (VStr "watch")
           (VStr "127.0.0.1") (VInt 9123) [Some "Final height"; None] (Ret tt));
    try reflexivity.
  - apply (bool_decide_unpack _). by vm_compute.
  - intros key k Hkey.
    unfold ALLOWED_KEYS in Hkey. rewrite !elem_of_cons, elem_of_nil in Hkey.
    destruct Hkey as [->|[->|[->|[]]]]; vm_compute; discriminate.
Defined.

(** After a session that returned, main looks at the forever flag only:
    when it is set, a new session starts from the state the first one left,
    whatever status that one returned; when it is not, the process exits
    with the status of the session. *)
Theorem main_after_session env fuel s code s1 forever :
  manage env s = (Ret code, s1) ->
  config s1 !! "forever" = Some forever ->
  main env (S fuel) s
  = if truthy forever then main env fuel s1 else (Ret (Some code), s1).
Proof.
  intros Hmanage Hforever. unfold main. erewrite run_bind by eassumption.
  simpl main_loop. erewrite run_getattr by eassumption.
  by destruct (truthy forever).
Qed.

Lemma main_after_session_witness :
  (main (Example.failing (EClientConnect Example.client (VInt 10)) (Exn TimeoutError ""))
        1 (Example.start VNone VNone)).1 = Ret (Some 1).
Proof.
  set (env := Example.failing (EClientConnect Example.client (VInt 10)) (Exn TimeoutError "")).
  rewrite (main_after_session env 0 (Example.start VNone VNone) 1
             (manage env (Example.start VNone VNone)).2 (VBool false));
    [reflexivity|vm_compute; reflexivity|reflexivity].
Defined.

Lemma main_loop_exit env fuel return_code s code s1 :
  return_code = 0 \/ return_code = 1 ->
  main_loop env fuel return_code s = (Ret (Some code), s1) ->
  (exists forever, config s1 !! "forever" = Some forever /\ truthy forever = false) /\
  (code = 0 \/ code = 1).
Proof.
  revert return_code s. induction fuel as [|fuel IH]; intros return_code s Hrc H.
  - done.
  - simpl in H.
    apply bind_Ret_inv in H as (forever & s2 & [Hforever ->]%getattr_Ret_inv & H).
    destruct (truthy forever) eqn:Ht.
    + apply bind_Ret_inv in H as (rc & s3 & Hmanage & H).
      apply (IH rc s3); [|done].
      apply (manage_code env s). by rewrite Hmanage.
    + injection H as <- <-. split; [by exists forever|done].
Qed.

(** main exits only when a session has returned and the forever flag is
    not set at that point; the status it exits with is 0 or 1. *)
Theorem main_exit env fuel s code s1 :
  main env fuel s = (Ret (Some code), s1) ->
  (exists forever, config s1 !! "forever" = Some forever /\ truthy forever = false) /\
  (code = 0 \/ code = 1).
Proof.
  intros H. unfold main in H.
  apply bind_Ret_inv in H as (rc & s2 & Hmanage & H).
  apply (main_loop_exit env fuel rc s2); [|done].
  apply (manage_code env s). by rewrite Hmanage.
Qed.

Lemma main_exit_witness :
  (exists forever,
     config (main (Example.calm []) 1 (Example.start VNone VNone)).2 !! "forever"
       = Some forever /\ truthy forever = false) /\
  (0 = 0 \/ 0 = 1).
Proof.
  apply (main_exit (Example.calm []) 1 (Example.start VNone VNone) 0).
  vm_compute. reflexivity.
Defined.
